(** * JBsn backend server (server.js): metadata store and upload/delete lifecycle

    A shallow embedding of [server.js]: the JSON-file database helpers
    ([db.read], [db.write], [db.addFile], [db.getFiles], [db.getFileById],
    [db.deleteFile], [db.getStats]), the multer configuration ([storage],
    [fileFilter], [limits]) and the upload and delete routes.

    Conventions of the embedding.
    - JavaScript numbers that hold counters, sizes and instants are [Z]: a
      number of the model is a double with an integer value. Sums are
      rounded as doubles are ([JS.round_double]): they are exact up to 2^53.
    - JavaScript strings are [string]; a character stands for one code unit
      below 256.
    - [uploadDate] holds the instant in milliseconds since the epoch; the
      program keeps it as [toISOString()] text and reads it back with
      [new Date(text)], which returns the same instant.
    - The effects of the program (the database file, the upload directory,
      the clock, exceptions) are threaded through the monad [M].
    - Paths are relative to [__dirname]. The disk holds the database
      file, the files of the map [disk], and the directories [fs.is_directory]
      lists; the text of [files.json] is not a value of the model.
    - [express], [multer] (with busboy), [path], [fs] and [crypto] are
      libraries the server calls: the functions it uses are modelled after
      their documentation, and the MD5 digest is a parameter ([md5_hex]). *)

From Stdlib Require Import ZArith Ascii Bool Lia Sorted Permutation.
From Stdlib Require Import DecimalString DecimalPos.
From stdpp Require Import base option list gmap strings.

Local Open Scope Z_scope.

(** ** The JavaScript runtime functions the server calls *)

Module JS.

Definition code (c : ascii) : Z := Z.of_nat (nat_of_ascii c).

Definition between (lo hi : Z) (c : ascii) : bool :=
  (lo <=? code c) && (code c <=? hi).

Fixpoint map_chars (f : ascii -> ascii) (s : string) : string :=
  match s with
  | EmptyString => EmptyString
  | String c s' => String (f c) (map_chars f s')
  end.

Fixpoint all_chars (p : ascii -> bool) (s : string) : bool :=
  match s with
  | EmptyString => true
  | String c s' => p c && all_chars p s'
  end.

(** [String.prototype.toLowerCase] on a code unit below 256: the letters
    A-Z and the capital letters of Latin-1 (192 to 222 but 215, the
    multiplication sign) have their small letter 32 further. *)
Definition lower (c : ascii) : ascii :=
  if between 65 90 c || (between 192 222 c && negb (code c =? 215))
  then ascii_of_nat (nat_of_ascii c + 32) else c.

Definition toLowerCase (s : string) : string := map_chars lower s.

(** The double nearest to the integer [x], ties to the even significand.
    Every integer up to 2^53 in absolute value is a double; beyond, the
    doubles between 2^e and 2^(e+1) are the multiples of 2^(e-52). Integers
    beyond the largest double are outside the model. *)
Definition round_double (x : Z) : Z :=
  if Z.abs x <=? 2 ^ 53 then x
  else
    let ulp := 2 ^ (Z.log2 (Z.abs x) - 52) in
    let q := x / ulp in
    let r := x mod ulp in
    if 2 * r <? ulp then q * ulp
    else if ulp <? 2 * r then (q + 1) * ulp
    else if Z.even q then q * ulp else (q + 1) * ulp.

(** [a + b] on numbers. *)
Definition add (a b : Z) : Z := round_double (a + b).

(** The value [n++] leaves in [n]: [n + 1], which is never below [n] when
    [n] is a double; [Z.max] keeps it so for a [Z] that is no double. *)
Definition incr (n : Z) : Z := Z.max n (add n 1).

(** [String(n)] for a safe integer (below 2^53 in absolute value): its
    decimal digits. Numbers from 1e21 are printed with an exponent, which
    this function does not do. *)
Definition Number_toString (n : Z) : string :=
  NilZero.string_of_int (Z.to_int n).

(** [parseInt(s)] with no radix: leading white space, an optional sign,
    an optional [0x] prefix, then the longest prefix of digits, rounded to
    a double; [None] is [NaN]. White space below 256 is 9 to 13, the space
    and the no-break space (160). *)
Definition is_space (c : ascii) : bool :=
  between 9 13 c || (code c =? 32) || (code c =? 160).

Fixpoint trimStart (s : string) : string :=
  match s with
  | String c s' => if is_space c then trimStart s' else s
  | EmptyString => EmptyString
  end.

Definition digit_value (radix : Z) (c : ascii) : option Z :=
  let v := if between 48 57 c then code c - 48
           else if between 97 122 c then code c - 87
           else if between 65 90 c then code c - 55
           else radix in
  if v <? radix then Some v else None.

Fixpoint digits_prefix (radix : Z) (s : string) (acc : option Z) : option Z :=
  match s with
  | String c s' =>
      match digit_value radix c with
      | Some v =>
          digits_prefix radix s'
            (Some (match acc with Some a => a * radix + v | None => v end))
      | None => acc
      end
  | EmptyString => acc
  end.

Definition strip_sign (s : string) : Z * string :=
  match s with
  | String "-"%char r => (-1, r)
  | String "+"%char r => (1, r)
  | _ => (1, s)
  end.

Definition strip_radix (s : string) : Z * string :=
  match s with
  | String "0"%char (String "x"%char r) => (16, r)
  | String "0"%char (String "X"%char r) => (16, r)
  | _ => (10, s)
  end.

Definition parseInt (s : string) : option Z :=
  let '(sign, s1) := strip_sign (trimStart s) in
  let '(radix, s2) := strip_radix s1 in
  match digits_prefix radix s2 None with
  | Some n => Some (round_double (sign * n))
  | None => None
  end.

(** [Date.prototype.toISOString] of an instant given in milliseconds
    since the epoch: [YYYY-MM-DDTHH:mm:ss.sssZ], with a signed six digit
    year outside 0..9999. *)
Definition digit (d : Z) : ascii :=
  match d with
  | 0 => "0" | 1 => "1" | 2 => "2" | 3 => "3" | 4 => "4"
  | 5 => "5" | 6 => "6" | 7 => "7" | 8 => "8" | _ => "9"
  end%char.

Fixpoint pad (width : nat) (n : Z) : string :=
  match width with
  | O => EmptyString
  | S k => pad k (n / 10) +:+ String (digit (n mod 10)) EmptyString
  end.

Definition msPerDay : Z := 86400000.

(** Year, month and day of a day number counted from 1970-01-01. *)
Definition civil (days : Z) : Z * Z * Z :=
  let z := days + 719468 in
  let era := z / 146097 in
  let doe := z - era * 146097 in
  let yoe := (doe - doe / 1460 + doe / 36524 - doe / 146096) / 365 in
  let doy := doe - (365 * yoe + yoe / 4 - yoe / 100) in
  let mp := (5 * doy + 2) / 153 in
  let d := doy - (153 * mp + 2) / 5 + 1 in
  let m := if mp <? 10 then mp + 3 else mp - 9 in
  let y := yoe + era * 400 + (if m <=? 2 then 1 else 0) in
  (y, m, d).

Definition year_text (y : Z) : string :=
  if (0 <=? y) && (y <=? 9999) then pad 4 y
  else (if y <? 0 then "-" else "+") +:+ pad 6 (Z.abs y).

Definition toISOString (t : Z) : string :=
  let '(y, m, d) := civil (t / msPerDay) in
  let ms := t mod msPerDay in
  year_text y +:+ "-" +:+ pad 2 m +:+ "-" +:+ pad 2 d +:+ "T"
    +:+ pad 2 (ms / 3600000) +:+ ":" +:+ pad 2 (ms / 60000 mod 60) +:+ ":"
    +:+ pad 2 (ms / 1000 mod 60) +:+ "." +:+ pad 3 (ms mod 1000) +:+ "Z".

(** [Array.prototype.findIndex]: the index of the first element that
    satisfies [p], or [-1]. *)
Fixpoint findIndex_from {A} (p : A -> bool) (l : list A) (i : Z) : Z :=
  match l with
  | [] => -1
  | x :: l' => if p x then i else findIndex_from p l' (i + 1)
  end.

Definition findIndex {A} (p : A -> bool) (l : list A) : Z :=
  findIndex_from p l 0.

(** [array.splice(index, 1)]: the removed elements and what is left of
    the array. *)
Definition splice1 {A} (index : Z) (l : list A) : list A * list A :=
  let i := Z.to_nat index in
  (firstn 1 (skipn i l), firstn i l ++ skipn (S i) l).

(** [Array.prototype.sort(cmp)]: a stable sort (ECMAScript 2019); [x]
    goes after [y] when [cmp x y > 0]. *)
Fixpoint sort_insert {A} (cmp : A -> A -> Z) (x : A) (l : list A) : list A :=
  match l with
  | [] => [x]
  | y :: l' => if cmp x y >? 0 then y :: sort_insert cmp x l' else x :: l
  end.

Fixpoint sort {A} (cmp : A -> A -> Z) (l : list A) : list A :=
  match l with
  | [] => []
  | x :: l' => sort_insert cmp x (sort cmp l')
  end.

End JS.

(** ** Node's [path] module (POSIX flavour) *)

Module path.

Definition slash : ascii := "/"%char.
Definition dot : ascii := "."%char.

Fixpoint drop_slashes (l : list ascii) : list ascii :=
  match l with
  | c :: l' => if Ascii.eqb c slash then drop_slashes l' else l
  | [] => []
  end.

Fixpoint take_segment (l : list ascii) : list ascii :=
  match l with
  | c :: l' => if Ascii.eqb c slash then [] else c :: take_segment l'
  | [] => []
  end.

(** On a reversed name: the characters after the last dot (still
    reversed) and the ones before it. *)
Fixpoint split_dot (l : list ascii) : option (list ascii * list ascii) :=
  match l with
  | [] => None
  | c :: l' =>
      if Ascii.eqb c dot then Some ([], l')
      else match split_dot l' with
           | Some (e, before) => Some (c :: e, before)
           | None => None
           end
  end.

(** [path.extname(p)]: from the last dot of the last segment of [p] to
    its end; empty when that segment has no dot, starts with its only
    dot, or is [..]. *)
Definition extname (p : string) : string :=
  let base := take_segment (drop_slashes (rev (String.list_ascii_of_string p))) in
  match split_dot base with
  | None => EmptyString
  | Some (e, before) =>
      match before with
      | [] => EmptyString
      | _ :: _ =>
          if bool_decide (base = [dot; dot]) then EmptyString
          else String.string_of_list_ascii (dot :: rev e)
      end
  end.

(** The segments of a path, between its slashes. *)
Fixpoint segments (p : string) : list string :=
  match p with
  | EmptyString => [EmptyString]
  | String c p' =>
      if Ascii.eqb c slash then EmptyString :: segments p'
      else match segments p' with
           | segment :: rest => String c segment :: rest
           | [] => [String c EmptyString]
           end
  end.

(** [normalizeString]: empty segments and [.] are dropped, [..] takes the
    segment before it away, or stays when there is none to take and the
    path is relative. [res] holds the segments kept, the last one first. *)
Fixpoint resolve (allowAboveRoot : bool) (segs res : list string) : list string :=
  match segs with
  | [] => rev res
  | segment :: segs' =>
      if String.eqb segment EmptyString || String.eqb segment "."
      then resolve allowAboveRoot segs' res
      else if String.eqb segment ".." then
        match res with
        | last :: res' =>
            if String.eqb last ".."
            then resolve allowAboveRoot segs' (segment :: res)
            else resolve allowAboveRoot segs' res'
        | [] => resolve allowAboveRoot segs' (if allowAboveRoot then [segment] else [])
        end
      else resolve allowAboveRoot segs' (segment :: res)
  end.

Fixpoint join_segments (segs : list string) : string :=
  match segs with
  | [] => EmptyString
  | [segment] => segment
  | segment :: segs' => segment +:+ "/" +:+ join_segments segs'
  end.

Definition isAbsolute (p : string) : bool :=
  match p with
  | String c _ => Ascii.eqb c slash
  | EmptyString => false
  end.

Fixpoint trailingSeparator (p : string) : bool :=
  match p with
  | EmptyString => false
  | String c EmptyString => Ascii.eqb c slash
  | String _ p' => trailingSeparator p'
  end.

(** [path.normalize(p)]. *)
Definition normalize (p : string) : string :=
  if String.eqb p EmptyString then "."
  else
    let res := join_segments (resolve (negb (isAbsolute p)) (segments p) []) in
    if String.eqb res EmptyString
    then (if isAbsolute p then "/" else if trailingSeparator p then "./" else ".")
    else (if isAbsolute p then "/" else EmptyString) +:+ res
           +:+ (if trailingSeparator p then "/" else EmptyString).

(** [path.join(dir, name)]: the arguments that are not empty, joined by
    a slash and normalised. *)
Definition join (dir name : string) : string :=
  if String.eqb dir EmptyString then normalize name
  else if String.eqb name EmptyString then normalize dir
  else normalize (dir +:+ "/" +:+ name).

End path.

(** ** busboy, the multipart parser of multer *)

(** A slash or a backslash (code 92). *)
Definition is_separator (c : ascii) : bool :=
  Ascii.eqb c "/"%char || (JS.code c =? 92).

Definition not_separator (c : ascii) : bool := negb (is_separator c).

Definition no_separator (s : string) : bool := JS.all_chars not_separator s.

Module busboy.

(** What follows the last slash or backslash of a name. *)
Fixpoint last_segment (name : string) : string :=
  match name with
  | EmptyString => EmptyString
  | String c name' =>
      if is_separator c then last_segment name'
      else if no_separator name' then name
      else last_segment name'
  end.

(** The [filename] busboy gives a file part ([preservePath] is off): the
    base name of the name the client sent, empty when that is [.] or
    [..]. *)
Definition basename (name : string) : string :=
  let base := last_segment name in
  if String.eqb base ".." || String.eqb base "." then EmptyString else base.

End busboy.

(** ** Data model *)

(** The object [fileInfo] built by the upload route. *)
Module FileInfo.
Record t := mk {
  filename : string;
  originalName : string;
  type : string;
  size : Z;
  hash : string;
  notes : string;
  path : string
}.
End FileInfo.

(** A record of the [files] array of the database. *)
Module File.
Record t := mk {
  id : Z;
  filename : string;
  originalName : string;
  type : string;
  size : Z;
  hash : string;
  notes : string;
  path : string;
  uploadDate : Z;
  status : string
}.
End File.

(** The document kept in [files.json]. *)
Record Data := mkData {
  files : list File.t;
  nextId : Z
}.

(** What [files.json] holds: nothing, text that [JSON.parse] rejects, or
    the text [JSON.stringify] produced for a document. *)
Inductive DbFile :=
| Missing
| Malformed (text : string)
| Document (data : Data).

(** The result of [db.getStats]. *)
Record Stats := mkStats {
  totalFiles : Z;
  totalSize : Z;
  byType : gmap string Z
}.

(** One file part of a multipart request: the name of its field, the
    file name the client sent and the content. *)
Module Part.
Record t := mk {
  fieldname : string;
  originalname : string;
  content : list Byte.byte
}.
End Part.

(** The file object multer hands to the route for a stored part. *)
Module MulterFile.
Record t := mk {
  originalname : string;
  filename : string;
  path : string;
  size : Z
}.
End MulterFile.

Record UploadRequest := mkUploadRequest {
  parts : list Part.t;
  body_notes : option string
}.

(** An entry of the [errors] array of the upload response. *)
Record UploadError := mkUploadError {
  err_filename : string;
  err_error : string
}.

Inductive Body :=
| UploadResult (success : bool) (uploaded : list File.t)
    (errors : list UploadError) (message : string)
| DeleteResult (success : bool) (message : string)
| Failure (success : bool) (error : string).

Record Response := mkResponse {
  status : Z;
  body : Body
}.

(** ** Effects *)

Inductive Exn :=
| Error (message : string)
| MulterError (code : string).

(** [err.message]; multer's messages for the two codes that can occur. *)
Definition message_of (e : Exn) : string :=
  match e with
  | Error m => m
  | MulterError c =>
      if bool_decide (c = "LIMIT_FILE_SIZE") then "File too large"
      else "Unexpected field"
  end.

(** The world the server runs in: the database file, the other files on
    disk by path (normalised, relative to [__dirname]), and the clock,
    given as the instants (valid dates) that successive [new Date()] calls
    observe. *)
Record World := mkWorld {
  dbFile : DbFile;
  disk : gmap string (list Byte.byte);
  clock : nat -> Z;
  reads : nat
}.

Definition M (A : Type) : Type := World -> (Exn + A) * World.

#[export] Instance M_ret : MRet M := fun A x w => (inr x, w).

#[export] Instance M_bind : MBind M := fun A B f m w =>
  match m w with
  | (inr x, w') => f x w'
  | (inl e, w') => (inl e, w')
  end.

Definition throw {A} (e : Exn) : M A := fun w => (inl e, w).

Definition try_catch {A} (m : M A) (handler : Exn -> M A) : M A := fun w =>
  match m w with
  | (inr x, w') => (inr x, w')
  | (inl e, w') => handler e w'
  end.

Definition get_world : M World := fun w => (inr w, w).
Definition put_world (w : World) : M unit := fun _ => (inr tt, w).

(** [new Date()]: the next instant of the clock. *)
Definition Date_now : M Z := fun w =>
  (inr (clock w (reads w)),
   mkWorld (dbFile w) (disk w) (clock w) (S (reads w))).

(** ** Configuration *)

(** [path.join(__dirname, 'uploads')]; paths are relative to [__dirname]. *)
Definition UPLOAD_DIR : string := "uploads".

Definition DATA_DIR : string := "data".

Definition dbPath : string := path.join DATA_DIR "files.json".

Definition ALLOWED_EXTENSIONS : gmap string string :=
  list_to_map [(".xlsx", "spreadsheet"); (".xls", "spreadsheet");
               (".csv", "spreadsheet"); (".ofx", "ofx"); (".pdf", "pdf")].

Definition MAX_FILE_SIZE : Z := 50 * 1024 * 1024.

(** ** The file system *)

Module fs.

(** [..], [../..] and so on: the directories above [__dirname]. *)
Fixpoint above (p : string) : bool :=
  match p with
  | String a (String b rest) =>
      Ascii.eqb a path.dot && Ascii.eqb b path.dot &&
      match rest with
      | EmptyString => true
      | String c p' => Ascii.eqb c path.slash && above p'
      end
  | _ => false
  end.

Fixpoint strip_slash (p : string) : string :=
  match p with
  | EmptyString => EmptyString
  | String c EmptyString =>
      if Ascii.eqb c path.slash then EmptyString else p
  | String c p' => String c (strip_slash p')
  end.

(** The directories of the model: [__dirname], the directories above it,
    and the two the server makes sure of when it starts; with or without a
    slash at the end. *)
Definition is_directory (p : string) : bool :=
  let d := strip_slash p in
  String.eqb d "." || String.eqb d UPLOAD_DIR || String.eqb d DATA_DIR
  || above d.

Definition db_present (w : World) : bool :=
  match dbFile w with
  | Missing => false
  | Malformed _ | Document _ => true
  end.

Definition existsSync (p : string) : M bool :=
  w ← get_world;
  mret (bool_decide (is_Some (disk w !! p)) || is_directory p
        || (String.eqb p dbPath && db_present w)).

(** The error of reading a path that holds no file. *)
Definition read_error (p : string) : Exn :=
  if is_directory p
  then Error "EISDIR: illegal operation on a directory, read"
  else Error ("ENOENT: no such file or directory, open '" +:+ p +:+ "'").

(** The route reads files of the upload directory only; the text of
    [files.json] is not read through this function. *)
Definition readFileSync (p : string) : M (list Byte.byte) :=
  w ← get_world;
  match disk w !! p with
  | Some bytes => mret bytes
  | None => throw (read_error p)
  end.

Definition writeFile (p : string) (bytes : list Byte.byte) : M unit :=
  w ← get_world;
  put_world (mkWorld (dbFile w) (<[p := bytes]> (disk w)) (clock w) (reads w)).

Definition unlinkSync (p : string) : M unit :=
  w ← get_world;
  match disk w !! p with
  | Some _ =>
      put_world (mkWorld (dbFile w) (delete p (disk w)) (clock w) (reads w))
  | None =>
      if String.eqb p dbPath && db_present w
      then put_world (mkWorld Missing (disk w) (clock w) (reads w))
      else if is_directory p
      then throw (Error ("EISDIR: illegal operation on a directory, unlink '"
                           +:+ p +:+ "'"))
      else throw (Error ("ENOENT: no such file or directory, unlink '"
                           +:+ p +:+ "'"))
  end.

(** [JSON.parse(fs.readFileSync(dbPath, 'utf8'))]. *)
Definition readParse_db : M Data :=
  w ← get_world;
  match dbFile w with
  | Document data => mret data
  | Malformed text =>
      throw (Error "Unexpected token in JSON")
  | Missing =>
      throw (Error "ENOENT: no such file or directory, open 'data/files.json'")
  end.

(** [fs.writeFileSync(dbPath, JSON.stringify(data, null, 2))]. *)
Definition writeStringify_db (data : Data) : M unit :=
  w ← get_world;
  put_world (mkWorld (Document data) (disk w) (clock w) (reads w)).

End fs.

(** ** Database helpers *)

Module db.

Definition empty : Data := mkData [] 1.

(** [try { return JSON.parse(...) } catch { return empty }]. *)
Definition read : M Data :=
  try_catch fs.readParse_db (fun _ => mret empty).

Definition write (data : Data) : M unit := fs.writeStringify_db data.

(** [fileInfo] has the seven keys the upload route gives it, none of which
    is [id], [uploadDate] or [status]: the spread overrides nothing. The
    record gets the value [nextId] had; [nextId++] leaves [JS.incr] of it. *)
Definition addFile (fileInfo : FileInfo.t) : M File.t :=
  data ← read;
  now ← Date_now;
  let file := File.mk (nextId data)
                (FileInfo.filename fileInfo) (FileInfo.originalName fileInfo)
                (FileInfo.type fileInfo) (FileInfo.size fileInfo)
                (FileInfo.hash fileInfo) (FileInfo.notes fileInfo)
                (FileInfo.path fileInfo)
                now "uploaded" in
  write (mkData (files data ++ [file]) (JS.incr (nextId data)));;
  mret file.

(** The comparison function of [getFiles]:
    [new Date(b.uploadDate) - new Date(a.uploadDate)]. *)
Definition byUploadDate (a b : File.t) : Z :=
  File.uploadDate b - File.uploadDate a.

Definition getFiles : M (list File.t) :=
  data ← read; mret (JS.sort byUploadDate (files data)).

(** [f.id === parseInt(id)]; nothing equals [NaN]. *)
Definition id_is (id : string) (f : File.t) : bool :=
  match JS.parseInt id with
  | Some n => File.id f =? n
  | None => false
  end.

Definition getFileById (id : string) : M (option File.t) :=
  data ← read; mret (List.find (id_is id) (files data)).

Definition deleteFile (id : string) : M (option File.t) :=
  data ← read;
  let index := JS.findIndex (id_is id) (files data) in
  if index >? -1 then
    let '(removed, rest) := JS.splice1 index (files data) in
    write (mkData rest (nextId data));;
    mret (head removed)
  else mret None.

(** [x || 0] on a number. *)
Definition or0 (x : Z) : Z := if x =? 0 then 0 else x.

(** The keys are the types the upload route records: none is a name of
    [Object.prototype]. *)
Definition count_type (byType : gmap string Z) (f : File.t) : gmap string Z :=
  <[File.type f := JS.add (or0 (default 0 (byType !! File.type f))) 1]> byType.

Definition getStats : M Stats :=
  files ← getFiles;
  mret (mkStats (Z.of_nat (length files))
          (fold_left (fun sum f => JS.add sum (or0 (File.size f))) files 0)
          (fold_left count_type files ∅)).

End db.

(** ** The multer configuration *)

(** The character class [[a-zA-Z0-9._-]] of the [safeName] pattern. *)
Definition is_safe_char (c : ascii) : bool :=
  JS.between 97 122 c || JS.between 65 90 c || JS.between 48 57 c
  || Ascii.eqb c "."%char || Ascii.eqb c "_"%char || Ascii.eqb c "-"%char.

(** [name.replace(/[^a-zA-Z0-9._-]/g, '_')], one character at a time. *)
Definition safe_char (c : ascii) : ascii :=
  if is_safe_char c then c else "_"%char.

(** [text.replace(/[:.]/g, '-')], one character at a time. *)
Definition stamp_char (c : ascii) : ascii :=
  if Ascii.eqb c ":"%char || Ascii.eqb c "."%char then "-"%char else c.

Module storage.

Definition destination : string := UPLOAD_DIR.

Definition filename (originalname : string) : M string :=
  now ← Date_now;
  let timestamp := JS.map_chars stamp_char (JS.toISOString now) in
  let safeName := JS.map_chars safe_char originalname in
  mret (timestamp +:+ "_" +:+ safeName).

End storage.

(** [fileFilter]: [inr true] is [cb(null, true)], [inl e] is
    [cb(e, false)]. A name of [Object.prototype] is never looked up: [ext]
    is empty or starts with a dot. *)
Definition fileFilter (originalname : string) : Exn + bool :=
  let ext := JS.toLowerCase (path.extname originalname) in
  match ALLOWED_EXTENSIONS !! ext with
  | Some _ => inr true
  | None => inl (Error ("File type " +:+ ext +:+ " is not allowed"))
  end.

(** The middleware [upload.array(field, maxCount)] of
    [multer({ storage, fileFilter, limits: { fileSize } })]: the parts are
    taken in order. The name of the file is the base name busboy gives; a
    part whose name is empty is skipped: it is no file. A part in another
    field or beyond [maxCount] is an error [LIMIT_UNEXPECTED_FILE]; then
    the file filter is asked, and an error it reports is the error of the
    request; an accepted part is stored under [destination/filename],
    unless its size reaches [fileSize], an error [LIMIT_FILE_SIZE]: busboy
    reports the limit as soon as [fileSize] bytes have come. On an error
    the files this request stored are removed and the error is passed on
    ([next(err)]): the route does not run. *)
Module multer.

Fixpoint removeUploadedFiles (stored : list MulterFile.t) : M unit :=
  match stored with
  | [] => mret tt
  | f :: rest =>
      try_catch (fs.unlinkSync (MulterFile.path f)) (fun _ => mret tt);;
      removeUploadedFiles rest
  end.

Definition abortWithError {A} (stored : list MulterFile.t) (e : Exn) : M A :=
  removeUploadedFiles stored;; throw e.

Fixpoint handle_parts (field : string) (filesLeft : Z) (parts : list Part.t)
    (stored : list MulterFile.t) : M (list MulterFile.t) :=
  match parts with
  | [] => mret stored
  | p :: rest =>
      let originalname := busboy.basename (Part.originalname p) in
      if String.eqb originalname EmptyString
      then handle_parts field filesLeft rest stored
      else if negb (bool_decide (Part.fieldname p = field)) || (filesLeft <=? 0)
      then abortWithError stored (MulterError "LIMIT_UNEXPECTED_FILE")
      else
        match fileFilter originalname with
        | inl e => abortWithError stored e
        | inr false => handle_parts field (filesLeft - 1) rest stored
        | inr true =>
            name ← storage.filename originalname;
            let size := Z.of_nat (length (Part.content p)) in
            if size >=? MAX_FILE_SIZE
            then abortWithError stored (MulterError "LIMIT_FILE_SIZE")
            else
              let file := MulterFile.mk originalname name
                            (path.join storage.destination name) size in
              fs.writeFile (MulterFile.path file) (Part.content p);;
              handle_parts field (filesLeft - 1) rest (stored ++ [file])
        end
  end.

Definition array (field : string) (maxCount : Z) (parts : list Part.t)
    : M (list MulterFile.t) :=
  handle_parts field maxCount parts [].

End multer.

(** ** Routes *)

(** The error-handling middleware at the end of [server.js]. *)
Definition errorMiddleware (err : Exn) : M Response :=
  match err with
  | MulterError code =>
      if bool_decide (code = "LIMIT_FILE_SIZE")
      then mret (mkResponse 400
                   (Failure false "File too large. Maximum size is 50MB."))
      else mret (mkResponse 500 (Failure false (message_of err)))
  | Error _ => mret (mkResponse 500 (Failure false (message_of err)))
  end.

Section Upload.

(** [crypto.createHash('md5').update(bytes).digest('hex')]. *)
Variable md5_hex : list Byte.byte -> string.

Definition getFileHash (filepath : string) : M string :=
  fileBuffer ← fs.readFileSync filepath; mret (md5_hex fileBuffer).

(** The object [fileInfo] the route builds for one file. *)
Definition fileInfo_of (file : MulterFile.t) (fileHash notes : string)
    : FileInfo.t :=
  let ext := JS.toLowerCase (path.extname (MulterFile.originalname file)) in
  FileInfo.mk (MulterFile.filename file) (MulterFile.originalname file)
    (default "unknown" (ALLOWED_EXTENSIONS !! ext))
    (MulterFile.size file) fileHash notes (MulterFile.path file).

(** The body of [req.files.forEach]: the [try] block and its [catch]. *)
Definition upload_file (notes : string) (file : MulterFile.t)
    (acc : list File.t * list UploadError)
    : M (list File.t * list UploadError) :=
  try_catch
    (fileHash ← getFileHash (MulterFile.path file);
     savedFile ← db.addFile (fileInfo_of file fileHash notes);
     mret (acc.1 ++ [savedFile], acc.2))
    (fun err =>
       mret (acc.1, acc.2 ++ [mkUploadError (MulterFile.originalname file)
                                 (message_of err)])).

Fixpoint forEach_file (notes : string) (req_files : list MulterFile.t)
    (acc : list File.t * list UploadError)
    : M (list File.t * list UploadError) :=
  match req_files with
  | [] => mret acc
  | file :: rest =>
      acc' ← upload_file notes file acc; forEach_file notes rest acc'
  end.

(** The route function of [POST /api/upload]. The length of an array is
    below 2^32: [String] prints its decimal digits. *)
Definition upload_route (req_files : list MulterFile.t)
    (req_body_notes : option string) : M Response :=
  try_catch
    (if Z.of_nat (length req_files) =? 0
     then mret (mkResponse 400 (Failure false "No files uploaded"))
     else
       let notes := default EmptyString req_body_notes in
       '(uploadedFiles, errors) ← forEach_file notes req_files ([], []);
       mret (mkResponse 200
               (UploadResult (Z.of_nat (length uploadedFiles) >? 0)
                  uploadedFiles errors
                  ("Successfully uploaded "
                     +:+ JS.Number_toString (Z.of_nat (length uploadedFiles))
                     +:+ " file(s)"))))
    (fun error => mret (mkResponse 500 (Failure false (message_of error)))).

(** [app.post('/api/upload', upload.array('files', 20), route)] followed
    by the error-handling middleware. *)
Definition post_upload (req : UploadRequest) : M Response :=
  try_catch
    (req_files ← multer.array "files" 20 (parts req);
     upload_route req_files (body_notes req))
    errorMiddleware.

End Upload.

(** [app.delete('/api/files/:id', route)]. *)
Definition delete_file (id : string) : M Response :=
  try_catch
    (file ← db.deleteFile id;
     match file with
     | None => mret (mkResponse 404 (Failure false "File not found"))
     | Some file =>
         let filePath := path.join UPLOAD_DIR (File.filename file) in
         present ← fs.existsSync filePath;
         (if present : bool then fs.unlinkSync filePath else mret tt);;
         mret (mkResponse 200 (DeleteResult true "File deleted successfully"))
     end)
    (fun error => mret (mkResponse 500 (Failure false (message_of error)))).

(** ** Vocabulary of the properties *)

(** The document [db.read] returns in a world. *)
Definition current (w : World) : Data :=
  match dbFile w with
  | Document data => data
  | Malformed _ | Missing => db.empty
  end.

Definition set_db (data : Data) (w : World) : World :=
  mkWorld (Document data) (disk w) (clock w) (reads w).

Definition tick (w : World) : World :=
  mkWorld (dbFile w) (disk w) (clock w) (S (reads w)).

(** The record [db.addFile] builds in a world. *)
Definition new_file (fileInfo : FileInfo.t) (w : World) : File.t :=
  File.mk (nextId (current w))
    (FileInfo.filename fileInfo) (FileInfo.originalName fileInfo)
    (FileInfo.type fileInfo) (FileInfo.size fileInfo)
    (FileInfo.hash fileInfo) (FileInfo.notes fileInfo)
    (FileInfo.path fileInfo)
    (clock w (reads w)) "uploaded".

Definition ids (data : Data) : list Z := map File.id (files data).

(** A sequence of calls of the two helpers that write the database. *)
Inductive DbCall :=
| Append (fileInfo : FileInfo.t)
| Remove (id : string).

(** Runs the calls in order; returns the records [db.addFile] returned. *)
Fixpoint run_calls (calls : list DbCall) (w : World) : list File.t * World :=
  match calls with
  | [] => ([], w)
  | Append fileInfo :: rest =>
      match db.addFile fileInfo w with
      | (inr file, w') =>
          let '(added, w'') := run_calls rest w' in (file :: added, w'')
      | (inl _, w') => run_calls rest w'
      end
  | Remove id :: rest => run_calls rest (db.deleteFile id w).2
  end.

(** [a] may stand before [b] in a list with the most recent first. *)
Definition newest_first (a b : File.t) : Prop :=
  File.uploadDate b <= File.uploadDate a.

Definition uploaded_at (t : Z) (f : File.t) : bool :=
  File.uploadDate f =? t.

(** The name [storage.filename] gives a file stored at the instant [now]. *)
Definition stored_name (now : Z) (originalname : string) : string :=
  JS.map_chars stamp_char (JS.toISOString now) +:+ "_"
    +:+ JS.map_chars safe_char originalname.

Fixpoint has_underscore (s : string) : bool :=
  match s with
  | EmptyString => false
  | String c s' => Ascii.eqb c "_"%char || has_underscore s'
  end.

(** The name multer gives the file of a part: [file.originalname]. *)
Definition file_name (p : Part.t) : string :=
  busboy.basename (Part.originalname p).

(** The extension of a name is not a key of [ALLOWED_EXTENSIONS]. *)
Definition disallowed (originalname : string) : Prop :=
  ALLOWED_EXTENSIONS !! JS.toLowerCase (path.extname originalname) = None.

(** The [type] the upload route gives a file of that name. *)
Definition type_of (originalname : string) : string :=
  default "unknown"
    (ALLOWED_EXTENSIONS !! JS.toLowerCase (path.extname originalname)).

(** [now] is an instant the clock gave between the worlds [w] and [w']. *)
Definition read_between (w w' : World) (now : Z) : Prop :=
  exists k, (reads w <= k < reads w')%nat /\ now = clock w k.

(** [file] is what multer stored, between [w] and [w'], for an accepted
    part of [parts]. *)
Definition stored_from (w w' : World) (parts : list Part.t)
    (file : MulterFile.t) : Prop :=
  exists p now,
    In p parts /\ read_between w w' now /\
    fileFilter (file_name p) = inr true /\
    MulterFile.originalname file = file_name p /\
    MulterFile.filename file = stored_name now (file_name p) /\
    MulterFile.path file = path.join UPLOAD_DIR (MulterFile.filename file).

(** [r] records the multer file [file]. *)
Definition records (file : MulterFile.t) (r : File.t) : Prop :=
  File.originalName r = MulterFile.originalname file /\
  File.filename r = MulterFile.filename file /\
  File.path r = MulterFile.path file /\
  File.type r = type_of (MulterFile.originalname file).

(** [r] records an accepted part of [parts], stored between [w] and
    [w']. *)
Definition recorded_from (w w' : World) (parts : list Part.t) (r : File.t)
    : Prop :=
  exists p now,
    In p parts /\ read_between w w' now /\
    fileFilter (file_name p) = inr true /\
    File.originalName r = file_name p /\
    File.filename r = stored_name now (file_name p) /\
    File.path r = path.join UPLOAD_DIR (File.filename r) /\
    File.type r = type_of (file_name p).

Definition allowed_type (t : string) : Prop :=
  t = "spreadsheet" \/ t = "ofx" \/ t = "pdf".

(** The requests that write the store. *)
Inductive Request :=
| Upload (req : UploadRequest)
| Delete (id : string).

(** Serves the requests in order; returns what each route returned. *)
Fixpoint serve (md5_hex : list Byte.byte -> string) (requests : list Request)
    (w : World) : list (Exn + Response) * World :=
  match requests with
  | [] => ([], w)
  | request :: rest =>
      let '(out, w') :=
        match request with
        | Upload req => post_upload md5_hex req w
        | Delete id => delete_file id w
        end in
      let '(outs, w'') := serve md5_hex rest w' in
      (out :: outs, w'')
  end.

(** The records of an upload response; none for another response. *)
Definition uploaded_of (out : Exn + Response) : list File.t :=
  match out with
  | inr (mkResponse _ (UploadResult _ uploaded _ _)) => uploaded
  | _ => []
  end.

(** A part in the field of the middleware and below the size limit. *)
Definition within_limits (field : string) (p : Part.t) : Prop :=
  Part.fieldname p = field /\
  Z.of_nat (length (Part.content p)) < MAX_FILE_SIZE.

(** A part the middleware accepts, given its turn: a file with a name,
    within the limits and with an allowed extension. *)
Definition accepted (field : string) (p : Part.t) : Prop :=
  file_name p <> EmptyString /\ within_limits field p /\
  ~ disallowed (file_name p).

(** The part is a file with a name: multer does not skip it. *)
Definition has_name (p : Part.t) : bool :=
  negb (String.eqb (file_name p) EmptyString).


(** The path of [file] is not the path of the database file. *)
Definition beside_db (file : MulterFile.t) : Prop :=
  String.eqb (MulterFile.path file) dbPath = false.

(** The file multer stores for the part [p] in the world [w], and the
    world it leaves. *)
Definition stored_file (w : World) (p : Part.t) : MulterFile.t :=
  let name := stored_name (clock w (reads w)) (file_name p) in
  MulterFile.mk (file_name p) name (path.join UPLOAD_DIR name)
    (Z.of_nat (length (Part.content p))).

Definition store_part (w : World) (p : Part.t) : World :=
  mkWorld (dbFile w)
    (<[MulterFile.path (stored_file w p) := Part.content p]> (disk w))
    (clock w) (S (reads w)).


(** [n] is a safe integer: [Number.isSafeInteger(n)]. *)
Definition safe_integer (n : Z) : Prop := - 2 ^ 53 < n < 2 ^ 53.

(** [nextId++] is exact [k] times: the next [k] ids of the store step by
    one and are below 2^53. *)
Definition exact_ids (k : nat) (data : Data) : Prop :=
  - 2 ^ 53 <= nextId data /\ nextId data + Z.of_nat k <= 2 ^ 53.

(** A name of an entry of the directory it is joined to: not empty,
    without a slash, and neither [.] nor [..]. Every name [storage.filename]
    gives is one. *)
Definition plain_name (name : string) : Prop :=
  name <> EmptyString /\
  JS.all_chars (fun c => negb (Ascii.eqb c path.slash)) name = true /\
  name <> "." /\ name <> "..".

(** The path of [file] is that of an entry of the upload directory, as
    for every file multer hands to the route. *)
Definition in_uploads (file : MulterFile.t) : Prop :=
  exists name, plain_name name /\
               MulterFile.path file = path.join UPLOAD_DIR name.

Definition filter_message (originalname : string) : string :=
  "File type " +:+ JS.toLowerCase (path.extname originalname)
    +:+ " is not allowed".

(** The ids of a store are pairwise different and below [nextId]. *)
Definition fresh_ids (data : Data) : Prop :=
  NoDup (ids data) /\ Forall (fun i => i < nextId data) (ids data).

(** ** Sample inputs *)

(** A record with id 1. *)
Definition twin (name : string) : File.t :=
  File.mk 1 name name "pdf" 0 EmptyString EmptyString ("uploads/" +:+ name) 0 "uploaded".

(** A store in which two records carry the same id. *)
Definition twins_world : World :=
  mkWorld (Document (mkData [twin "a.pdf"; twin "b.pdf"] 2)) ∅ (fun _ => 0) 0.

(** The MD5 digest of the empty input, the content of the sample parts. *)
Definition md5_empty (bytes : list Byte.byte) : string :=
  "d41d8cd98f00b204e9800998ecf8427e".

Definition sample_part (originalname : string) : Part.t :=
  Part.mk "files" originalname [].

(** An empty store, an empty upload directory, a clock that starts at
    2023-11-14T22:13:20.000Z and advances by a millisecond at each reading. *)
Definition sample_world : World :=
  mkWorld (Document (mkData [] 1)) ∅ (fun n => 1700000000000 + Z.of_nat n) 0.


Definition traversal_upload : UploadRequest :=
  mkUploadRequest [sample_part "../../etc/passwd.csv"] None.

(** Two files the middleware accepts, with notes. *)
Definition pair_upload : UploadRequest :=
  mkUploadRequest [sample_part "a.csv"; sample_part "report.PDF"] (Some "march").

(** An empty store whose [nextId] is 2^53. *)
Definition full_world : World :=
  mkWorld (Document (mkData [] (2 ^ 53))) ∅ (fun _ => 0) 0.



(** A record whose [filename] leads to the database file, and a store
    that holds it. *)
Definition straying : File.t :=
  File.mk 7 "../data/files.json" "files.json" "pdf" 0 EmptyString EmptyString
    "data/files.json" 0 "uploaded".

Definition straying_world : World :=
  mkWorld (Document (mkData [twin "a.pdf"; straying] 8)) ∅ (fun _ => 0) 0.

(** A database file that [JSON.parse] rejects. *)
Definition garbled_world : World :=
  mkWorld (Malformed "{ files: [") ∅ (fun _ => 0) 0.

(** ** The routes that read *)

Inductive ReadBody :=
| FilesResult (success : bool) (files : list File.t)
| StatsResult (success : bool) (stats : Stats)
| ReadFailure (success : bool) (error : string).

Record ReadResponse := mkReadResponse {
  read_status : Z;
  read_body : ReadBody
}.

(** [app.get('/api/files', route)]. *)
Definition get_files : M ReadResponse :=
  try_catch
    (files ← db.getFiles;
     mret (mkReadResponse 200 (FilesResult true files)))
    (fun error =>
       mret (mkReadResponse 500 (ReadFailure false (message_of error)))).

(** [app.get('/api/stats', route)]. *)
Definition get_stats : M ReadResponse :=
  try_catch
    (stats ← db.getStats;
     mret (mkReadResponse 200 (StatsResult true stats)))
    (fun error =>
       mret (mkReadResponse 500 (ReadFailure false (message_of error)))).

(** What the download route hands to the response: the two headers it
    sets and the arguments and content of [res.download]. *)
Record Download := mkDownload {
  contentType : string;
  contentDisposition : string;
  sent_path : string;
  sent_name : string;
  sent_bytes : list Byte.byte
}.

Inductive DownloadResponse :=
| Sent (d : Download)
| NotSent (status : Z) (success : bool) (error : string).

(** The double quote character. *)
Definition quote : string := String (ascii_of_nat 34) EmptyString.

Section DownloadRoute.

(** [mime.lookup(path)]; [None] is [false]. *)
Variable mime_lookup : string -> option string.

(** [app.get('/api/download/:id', route)]. *)
Definition download (id : string) : M DownloadResponse :=
  try_catch
    (file ← db.getFileById id;
     match file with
     | None => mret (NotSent 404 false "File not found")
     | Some file =>
         let filePath := path.join UPLOAD_DIR (File.filename file) in
         present ← fs.existsSync filePath;
         if present : bool then
           let mimeType :=
             default "application/octet-stream" (mime_lookup filePath) in
           bytes ← fs.readFileSync filePath;
           mret (Sent (mkDownload mimeType
                         ("attachment; filename=" +:+ quote
                            +:+ File.originalName file +:+ quote)
                         filePath (File.originalName file) bytes))
         else mret (NotSent 404 false "File not found on disk")
     end)
    (fun error => mret (NotSent 500 false (message_of error))).

End DownloadRoute.

(** ** Further vocabulary *)

Definition sum_sizes (l : list File.t) : Z :=
  fold_right (fun f s => File.size f + s) 0 l.

Definition has_type (t : string) (f : File.t) : bool :=
  bool_decide (File.type f = t).

(** The number of records of type [t]. *)
Definition count_of_type (t : string) (l : list File.t) : Z :=
  Z.of_nat (length (List.filter (has_type t) l)).

(** The sizes are byte counts, and the totals are safe integers, or
    2^53: the sums of [db.getStats] are exact. *)
Definition exact_stats (data : Data) : Prop :=
  Forall (fun f => 0 <= File.size f) (files data) /\
  sum_sizes (files data) <= 2 ^ 53 /\
  Z.of_nat (length (files data)) <= 2 ^ 53.

(** The number of file parts in the upload requests. *)
Fixpoint parts_in (requests : list Request) : nat :=
  match requests with
  | [] => 0%nat
  | Upload req :: rest => (length (parts req) + parts_in rest)%nat
  | Delete _ :: rest => parts_in rest
  end.

Definition is_digit (c : ascii) : bool := JS.between 48 57 c.

(** The file multer stored is still in the upload directory. *)
Definition on_disk (w : World) (file : MulterFile.t) : bool :=
  bool_decide (is_Some (disk w !! MulterFile.path file)).

(** [n], [n + 1], ... : [k] numbers. *)
Fixpoint count_from (n : Z) (k : nat) : list Z :=
  match k with
  | O => []
  | S k' => n :: count_from (n + 1) k'
  end.

(** The entry of [errors] for a file that is not on disk. *)
Definition unreadable (file : MulterFile.t) : UploadError :=
  mkUploadError (MulterFile.originalname file)
    ("ENOENT: no such file or directory, open '"
       +:+ MulterFile.path file +:+ "'").


(** ** Further sample inputs and vocabulary *)

(** A store with two records and the file of the first on disk. *)
Definition stocked_world : World :=
  mkWorld
    (Document (mkData [twin "a.pdf";
                       File.mk 2 "b.pdf" "b.pdf" "pdf" 0 EmptyString EmptyString
                         "uploads/b.pdf" 0 "uploaded"] 3))
    {[ "uploads/a.pdf" := [] ]} (fun _ => 0) 0.

Definition sample_info : FileInfo.t :=
  FileInfo.mk "x_a.csv" "a.csv" "spreadsheet" 3
    "900150983cd24fb0d6963f7d28e17f72" EmptyString "uploads/x_a.csv".

(** One record, and a clock that reads a later instant. *)
Definition later_world : World :=
  mkWorld (Document (mkData [twin "a.pdf"] 2)) ∅ (fun _ => 5) 0.

(** [file] is what multer stores for the accepted part [p]. *)
Definition stored_as (p : Part.t) (file : MulterFile.t) : Prop :=
  MulterFile.originalname file = file_name p /\
  (exists now, MulterFile.filename file = stored_name now (file_name p)) /\
  MulterFile.path file = path.join UPLOAD_DIR (MulterFile.filename file) /\
  MulterFile.size file = Z.of_nat (length (Part.content p)).

(** [r] is the record the upload route adds for [file], read in [w]. *)
Definition recorded_as (md5_hex : list Byte.byte -> string) (notes : string)
    (w : World) (file : MulterFile.t) (r : File.t) : Prop :=
  records file r /\
  File.size r = MulterFile.size file /\
  File.notes r = notes /\
  File.status r = "uploaded" /\
  exists bytes, disk w !! MulterFile.path file = Some bytes /\
                File.hash r = md5_hex bytes.

(** The files of the request hold contents that satisfy [Q]. *)
Definition stored_with (Q : list Byte.byte -> Prop) (w : World)
    (file : MulterFile.t) : Prop :=
  exists bytes, disk w !! MulterFile.path file = Some bytes /\ Q bytes.


(** A character of a stored name: one of the class of [safeName], or the
    sign of a year beyond 9999. *)
Definition is_name_char (c : ascii) : bool :=
  is_safe_char c || Ascii.eqb c "+"%char.

(** * Properties *)

(** ** The runtime functions on examples *)

Example toISOString_epoch : JS.toISOString 0 = "1970-01-01T00:00:00.000Z".
Proof. reflexivity. Qed.

Example toISOString_2023 :
  JS.toISOString 1700000000123 = "2023-11-14T22:13:20.123Z".
Proof. reflexivity. Qed.

Example toISOString_leap :
  JS.toISOString 1709210096789 = "2024-02-29T12:34:56.789Z".
Proof. reflexivity. Qed.

Example toISOString_before_epoch :
  JS.toISOString (-1) = "1969-12-31T23:59:59.999Z".
Proof. reflexivity. Qed.

Example parseInt_examples :
  JS.parseInt "42" = Some 42 /\ JS.parseInt " 12abc" = Some 12 /\
  JS.parseInt "abc" = None /\ JS.parseInt "-7" = Some (-7) /\
  JS.parseInt "0x1f" = Some 31 /\ JS.parseInt EmptyString = None.
Proof. repeat split. Qed.

Example extname_examples :
  map path.extname
    ["index.html"; "index.coffee.md"; "index."; "index"; ".index"; ".index.md";
     ".."; "a/b.c/d"; "a/b.txt/"; "report.XLSX"]
  = [".html"; ".md"; "."; EmptyString; EmptyString; ".md"; EmptyString; EmptyString; ".txt"; ".XLSX"].
Proof. reflexivity. Qed.

Example join_examples :
  map (path.join "uploads")
    ["a.pdf"; EmptyString; "../data/files.json"; "."; ".."; "sub/../a"; "a//b"; "a/"]
  = ["uploads/a.pdf"; "uploads"; "data/files.json"; "uploads"; ".";
     "uploads/a"; "uploads/a/b"; "uploads/a/"].
Proof. reflexivity. Qed.

Example basename_examples :
  map busboy.basename
    ["../../etc/passwd.csv"; "a.pdf/"; "."; ".."; "a/.."; "C:\dir\a.pdf"; "a.pdf"]
  = ["passwd.csv"; EmptyString; EmptyString; EmptyString; EmptyString; "a.pdf"; "a.pdf"].
Proof. reflexivity. Qed.

(** 2^53 + 1 is no double; beyond 2^53 a sum is rounded. *)
Example round_double_examples :
  map JS.round_double [2 ^ 53; 2 ^ 53 + 1; 2 ^ 53 + 2; 2 ^ 53 + 3; - 2 ^ 53 - 1]
  = [2 ^ 53; 2 ^ 53; 2 ^ 53 + 2; 2 ^ 53 + 4; - 2 ^ 53] /\
  map JS.incr [0; 2 ^ 53 - 1; 2 ^ 53; - 2 ^ 53] = [1; 2 ^ 53; 2 ^ 53; - 2 ^ 53 + 1].
Proof. split; reflexivity. Qed.

Example sort_example :
  JS.sort (fun a b : Z * string => b.1 - a.1)
    [(1, "a"); (3, "b"); (1, "c"); (3, "d"); (2, "e")]
  = [(3, "b"); (3, "d"); (2, "e"); (1, "a"); (1, "c")].
Proof. reflexivity. Qed.

(** ** Running the database helpers *)

Ltac unfold_M :=
  unfold db.write, fs.writeStringify_db, fs.readParse_db, try_catch, throw,
    get_world, put_world, Date_now, mbind, M_bind, mret, M_ret in *.

Lemma read_run (w : World) : db.read w = (inr (current w), w).
Proof.
  unfold db.read, current. unfold_M. destruct (dbFile w); reflexivity.
Qed.

Lemma bind_run {A B} (m : M A) (f : A -> M B) (w w' : World) (x : A) :
  m w = (inr x, w') -> (x ← m; f x) w = f x w'.
Proof. intros H. unfold_M. rewrite H. reflexivity. Qed.

Lemma bind_throw {A B} (m : M A) (f : A -> M B) (w w' : World) (e : Exn) :
  m w = (inl e, w') -> (x ← m; f x) w = (inl e, w').
Proof. intros H. unfold_M. rewrite H. reflexivity. Qed.

(** *** Numbers *)

Lemma round_double_exact (x : Z) : Z.abs x <= 2 ^ 53 -> JS.round_double x = x.
Proof.
  intros H. unfold JS.round_double.
  destruct (Z.leb_spec (Z.abs x) (2 ^ 53)); [reflexivity | lia].
Qed.

Lemma add_exact (a b : Z) : Z.abs (a + b) <= 2 ^ 53 -> JS.add a b = a + b.
Proof. apply round_double_exact. Qed.

Lemma incr_ge (n : Z) : n <= JS.incr n.
Proof. unfold JS.incr. lia. Qed.

Lemma incr_exact (n : Z) : - 2 ^ 53 <= n < 2 ^ 53 -> JS.incr n = n + 1.
Proof.
  intros H. unfold JS.incr. rewrite add_exact by lia. lia.
Qed.

Lemma exact_ids_le (k k' : nat) (data : Data) :
  (k' <= k)%nat -> exact_ids k data -> exact_ids k' data.
Proof. intros Hk [Hlo Hhi]. split; lia. Qed.

Lemma addFile_run (fileInfo : FileInfo.t) (w : World) :
  db.addFile fileInfo w =
    (inr (new_file fileInfo w),
     set_db (mkData (files (current w) ++ [new_file fileInfo w])
               (JS.incr (nextId (current w)))) (tick w)).
Proof.
  unfold db.addFile. rewrite (bind_run _ _ _ _ _ (read_run w)).
  reflexivity.
Qed.

Lemma getFileById_run (id : string) (w : World) :
  db.getFileById id w = (inr (List.find (db.id_is id) (files (current w))), w).
Proof.
  unfold db.getFileById. rewrite (bind_run _ _ _ _ _ (read_run w)).
  reflexivity.
Qed.

Lemma getFiles_run (w : World) :
  db.getFiles w = (inr (JS.sort db.byUploadDate (files (current w))), w).
Proof.
  unfold db.getFiles. rewrite (bind_run _ _ _ _ _ (read_run w)).
  reflexivity.
Qed.

(** *** [findIndex], [find] and [splice] at the first match *)

Section FirstMatch.
Context {A : Type} (p : A -> bool).

Lemma findIndex_from_none (l : list A) (i : Z) :
  Forall (fun x => p x = false) l -> JS.findIndex_from p l i = -1.
Proof.
  intros H. revert i. induction H as [|x l Hx _ IH]; intros i; simpl.
  - reflexivity.
  - rewrite Hx. apply IH.
Qed.

Lemma findIndex_from_at (l1 l2 : list A) (x : A) (i : Z) :
  Forall (fun y => p y = false) l1 -> p x = true ->
  JS.findIndex_from p (l1 ++ x :: l2) i = i + Z.of_nat (length l1).
Proof.
  intros H Hx. revert i. induction H as [|y l Hy _ IH]; intros i; simpl.
  - rewrite Hx. lia.
  - rewrite Hy, IH. lia.
Qed.

Lemma find_at (l1 l2 : list A) (x : A) :
  Forall (fun y => p y = false) l1 -> p x = true ->
  List.find p (l1 ++ x :: l2) = Some x.
Proof.
  intros H Hx. induction H as [|y l Hy _ IH]; simpl.
  - now rewrite Hx.
  - now rewrite Hy.
Qed.

Lemma find_none (l : list A) :
  Forall (fun x => p x = false) l -> List.find p l = None.
Proof.
  induction 1 as [|x l Hx _ IH]; simpl; [reflexivity | now rewrite Hx].
Qed.

Lemma splice1_at (l1 l2 : list A) (x : A) :
  JS.splice1 (Z.of_nat (length l1)) (l1 ++ x :: l2) = ([x], l1 ++ l2).
Proof.
  unfold JS.splice1. rewrite Nat2Z.id.
  rewrite drop_app_length, take_app_length.
  replace (S (length l1)) with (length (l1 ++ [x])) by (rewrite length_app; simpl; lia).
  replace (l1 ++ x :: l2) with ((l1 ++ [x]) ++ l2) by (now rewrite <- app_assoc).
  rewrite drop_app_length. reflexivity.
Qed.

(** Every list either has no match or splits at its first one. *)
Lemma first_match (l : list A) :
  Forall (fun x => p x = false) l \/
  exists l1 x l2, l = l1 ++ x :: l2 /\
    Forall (fun y => p y = false) l1 /\ p x = true.
Proof.
  induction l as [|y l IH].
  - left. constructor.
  - destruct (p y) eqn:Hy.
    + right. exists [], y, l. repeat split; [constructor | assumption].
    + destruct IH as [IH | (l1 & x & l2 & -> & H1 & Hx)].
      * left. now constructor.
      * right. exists (y :: l1), x, l2. repeat split; [now constructor | assumption].
Qed.

End FirstMatch.

Lemma deleteFile_none (id : string) (w : World) :
  Forall (fun f => db.id_is id f = false) (files (current w)) ->
  db.deleteFile id w = (inr None, w).
Proof.
  intros H. unfold db.deleteFile. rewrite (bind_run _ _ _ _ _ (read_run w)).
  unfold JS.findIndex. rewrite (findIndex_from_none _ _ _ H). reflexivity.
Qed.

Lemma deleteFile_some (id : string) (w : World) (l1 l2 : list File.t) (f : File.t) :
  files (current w) = l1 ++ f :: l2 ->
  Forall (fun g => db.id_is id g = false) l1 ->
  db.id_is id f = true ->
  db.deleteFile id w =
    (inr (Some f), set_db (mkData (l1 ++ l2) (nextId (current w))) w).
Proof.
  intros Hl H1 Hf. unfold db.deleteFile.
  rewrite (bind_run _ _ _ _ _ (read_run w)).
  unfold JS.findIndex. rewrite Hl, (findIndex_from_at _ _ _ _ _ H1 Hf).
  rewrite Z.add_0_l.
  assert (Hg : (Z.of_nat (length l1) >? -1) = true) by (apply Z.gtb_lt; lia).
  rewrite Hg, splice1_at. reflexivity.
Qed.

(** ** The database helpers *)

Lemma current_set_db (data : Data) (w : World) : current (set_db data w) = data.
Proof. reflexivity. Qed.

Lemma deleteFile_cases (id : string) (w : World) :
  (Forall (fun f => db.id_is id f = false) (files (current w)) /\
   db.deleteFile id w = (inr None, w)) \/
  (exists l1 f l2,
     files (current w) = l1 ++ f :: l2 /\
     Forall (fun g => db.id_is id g = false) l1 /\
     db.id_is id f = true /\
     db.deleteFile id w =
       (inr (Some f), set_db (mkData (l1 ++ l2) (nextId (current w))) w)).
Proof.
  destruct (first_match (db.id_is id) (files (current w)))
    as [Hnone | (l1 & f & l2 & Hl & H1 & Hf)].
  - left. split; [assumption | now apply deleteFile_none].
  - right. exists l1, f, l2. repeat split; try assumption.
    now apply deleteFile_some.
Qed.

Lemma deleteFile_effect (id : string) (w : World) :
  let w' := (db.deleteFile id w).2 in
  nextId (current w') = nextId (current w) /\
  List.filter (fun f => negb (db.id_is id f)) (files (current w')) =
    List.filter (fun f => negb (db.id_is id f)) (files (current w)) /\
  (files (current w') = files (current w) \/
   exists l1 f l2, db.id_is id f = true /\
     files (current w) = l1 ++ f :: l2 /\ files (current w') = l1 ++ l2) /\
  disk w' = disk w.
Proof.
  destruct (deleteFile_cases id w)
    as [[_ Hrun] | (l1 & f & l2 & Hl & _ & Hf & Hrun)]; rewrite Hrun; simpl.
  - repeat split; auto.
  - rewrite Hl. repeat split.
    + rewrite !List.filter_app. simpl. now rewrite Hf.
    + right. now exists l1, f, l2.
Qed.

(** C9: [db.deleteFile] leaves [nextId] and every record that does not
    match the id as they were and in the order they had, and takes at most
    the first matching record out of the array, whether or not a record
    matched; the other files on disk are not touched. *)
Theorem deleteFile_frame (id : string) (w : World) :
  let w' := (db.deleteFile id w).2 in
  nextId (current w') = nextId (current w) /\
  List.filter (fun f => negb (db.id_is id f)) (files (current w')) =
    List.filter (fun f => negb (db.id_is id f)) (files (current w)) /\
  (files (current w') = files (current w) \/
   exists l1 f l2, db.id_is id f = true /\
     files (current w) = l1 ++ f :: l2 /\ files (current w') = l1 ++ l2) /\
  disk w' = disk w.
Proof. apply deleteFile_effect. Qed.

(** C5, as stated, fails on a store in which two records carry the same
    id: the first is removed and the second is found. *)
Lemma remove_then_find_twins :
  (db.getFileById "1" (db.deleteFile "1" twins_world).2).1
    = inr (Some (twin "b.pdf")) /\
  (db.getFileById "1" (db.deleteFile "1" twins_world).2).1 <> inr None.
Proof. split; [reflexivity | discriminate]. Qed.

Lemma id_is_same_id (id : string) (f g : File.t) :
  db.id_is id f = true -> db.id_is id g = true -> File.id f = File.id g.
Proof.
  unfold db.id_is. destruct (JS.parseInt id); [|discriminate].
  intros Hf Hg. apply Z.eqb_eq in Hf, Hg. congruence.
Qed.


(** *** Stores the helpers build *)

Lemma ids_app (l : list File.t) (f : File.t) (n m : Z) :
  ids (mkData (l ++ [f]) n) = ids (mkData l m) ++ [File.id f].
Proof. unfold ids. simpl. now rewrite map_app. Qed.

Lemma addFile_fresh (fileInfo : FileInfo.t) (w : World) :
  exact_ids 1 (current w) ->
  fresh_ids (current w) -> fresh_ids (current (db.addFile fileInfo w).2).
Proof.
  intros [Hlo Hhi] [Hnd Hlt]. rewrite addFile_run. simpl.
  rewrite incr_exact by lia. unfold fresh_ids, ids in *. simpl.
  rewrite map_app. simpl. split.
  - apply NoDup_app. split; [assumption|]. split; [|apply NoDup_singleton].
    intros i Hi Hin. apply list_elem_of_singleton in Hin. subst i.
    rewrite Forall_forall in Hlt. specialize (Hlt _ Hi). lia.
  - apply Forall_app. split.
    + eapply Forall_impl; [exact Hlt|]. simpl. intros i Hi. lia.
    + repeat constructor. lia.
Qed.

Lemma deleteFile_fresh (id : string) (w : World) :
  fresh_ids (current w) -> fresh_ids (current (db.deleteFile id w).2).
Proof.
  intros [Hnd Hlt].
  destruct (deleteFile_cases id w)
    as [[_ Hrun] | (l1 & f & l2 & Hl & _ & _ & Hrun)]; rewrite Hrun; simpl.
  - now split.
  - unfold fresh_ids, ids in *. simpl. rewrite Hl in Hnd, Hlt.
    rewrite map_app in *. simpl in *.
    apply NoDup_app in Hnd as (Hnd1 & Hdisj & Hnd2).
    apply NoDup_cons in Hnd2 as [_ Hnd2].
    apply Forall_app in Hlt as [Hlt1 Hlt2]. apply Forall_cons in Hlt2 as [_ Hlt2].
    split.
    + apply NoDup_app. split; [assumption|]. split; [|assumption].
      intros i Hi Hin. apply (Hdisj i Hi). now right.
    + now apply Forall_app.
Qed.

(** Every store built from a store with fresh ids, the empty one for
    instance, by [db.addFile] and [db.deleteFile] has fresh ids, as long as
    the ids are safe integers. *)
Lemma run_calls_fresh (calls : list DbCall) (w : World) :
  exact_ids (length calls) (current w) ->
  fresh_ids (current w) -> fresh_ids (current (run_calls calls w).2).
Proof.
  revert w. induction calls as [|[fileInfo | id] calls IH]; intros w Hx Hw; simpl.
  - exact Hw.
  - assert (Hx1 : exact_ids 1 (current w))
      by (destruct Hx; split; simpl in *; lia).
    pose proof (addFile_fresh fileInfo w Hx1 Hw) as Hw'.
    rewrite addFile_run in *.
    match goal with |- context [run_calls calls ?w1] =>
      specialize (IH w1); destruct (run_calls calls w1) end.
    apply IH; [|exact Hw']. destruct Hx as [Hlo Hhi]. simpl in *.
    rewrite incr_exact by lia. split; simpl; lia.
  - apply IH; [|apply deleteFile_fresh, Hw].
    destruct (deleteFile_effect id w) as (Hn & _). simpl in Hn.
    destruct Hx as [Hlo Hhi]. simpl in *. split; rewrite Hn; lia.
Qed.

Lemma empty_fresh : fresh_ids db.empty.
Proof. split; constructor. Qed.

Lemma find_after_delete (id : string) (w : World) :
  NoDup (ids (current w)) ->
  (db.getFileById id (db.deleteFile id w).2).1 = inr None.
Proof.
  intros Hnd.
  destruct (deleteFile_cases id w)
    as [[Hnone Hrun] | (l1 & f & l2 & Hl & H1 & Hf & Hrun)];
    rewrite Hrun, getFileById_run; simpl; f_equal.
  - now apply find_none.
  - apply find_none. apply Forall_app. split; [assumption|].
    unfold ids in Hnd. rewrite Hl, map_app in Hnd. simpl in Hnd.
    apply NoDup_app in Hnd as (_ & _ & Hnd).
    apply NoDup_cons in Hnd as [Hnotin _].
    apply Forall_forall. intros g Hg.
    destruct (db.id_is id g) eqn:E; [|reflexivity].
    exfalso. apply Hnotin. rewrite (id_is_same_id id f g Hf E).
    apply list_elem_of_fmap_2. assumption.
Qed.

(** On every store built from the empty one by fewer than 2^53 calls of
    the two helpers, a deleted id is not found. *)
Lemma find_after_delete_built (calls : list DbCall) (id : string) (w : World) :
  current w = db.empty ->
  Z.of_nat (length calls) < 2 ^ 53 ->
  (db.getFileById id (db.deleteFile id (run_calls calls w).2).2).1 = inr None.
Proof.
  intros Hw Hlen. apply find_after_delete.
  apply (run_calls_fresh calls w); rewrite Hw; [|apply empty_fresh].
  split; simpl; lia.
Qed.

(** C5 (amended): on a store whose records have pairwise different ids,
    [db.deleteFile id] followed by [db.getFileById id] yields no record. *)
Theorem remove_then_find_absent (id : string) (w : World) :
  NoDup (ids (current w)) ->
  (db.getFileById id (db.deleteFile id w).2).1 = inr None.
Proof. apply find_after_delete. Qed.

Lemma remove_then_find_absent_witness :
  NoDup (ids (current (set_db (mkData [twin "a.pdf"] 2) twins_world))) /\
  (db.getFileById "1"
     (db.deleteFile "1" (set_db (mkData [twin "a.pdf"] 2) twins_world)).2).1
    = inr None.
Proof.
  assert (H : NoDup (ids (current (set_db (mkData [twin "a.pdf"] 2) twins_world)))).
  { repeat constructor. simpl. apply not_elem_of_nil. }
  split; [exact H|]. exact (remove_then_find_absent "1" _ H).
Defined.

(** C6: when [files.json] cannot be read and parsed, [db.read] throws
    nothing and returns the empty document [{ files: [], nextId: 1 }], and
    every helper answers as on an empty store: nothing is listed or found,
    the statistics are zero, nothing is deleted, and [db.addFile] does what
    it does on the empty document. *)
Theorem read_unparsable_is_empty (w : World) (e : Exn) :
  (fs.readParse_db w).1 = inl e ->
  db.read w = (inr (mkData [] 1), w) /\
  db.getFiles w = (inr [], w) /\
  (forall id, db.getFileById id w = (inr None, w)) /\
  db.getStats w = (inr (mkStats 0 0 ∅), w) /\
  (forall id, db.deleteFile id w = (inr None, w)) /\
  (forall fileInfo,
     db.addFile fileInfo w = db.addFile fileInfo (set_db (mkData [] 1) w)).
Proof.
  intros H.
  assert (Hc : current w = mkData [] 1).
  { unfold current. unfold_M. destruct (dbFile w); [reflexivity.. | discriminate]. }
  repeat split.
  - now rewrite read_run, Hc.
  - now rewrite getFiles_run, Hc.
  - intros id. now rewrite getFileById_run, Hc.
  - unfold db.getStats. rewrite (bind_run _ _ _ _ _ (getFiles_run w)), Hc.
    reflexivity.
  - intros id. apply deleteFile_none. rewrite Hc. constructor.
  - intros fileInfo. rewrite !addFile_run. unfold new_file.
    rewrite current_set_db, Hc. reflexivity.
Qed.

Lemma read_unparsable_is_empty_witness :
  (fs.readParse_db garbled_world).1 = inl (Error "Unexpected token in JSON") /\
  db.read garbled_world = (inr (mkData [] 1), garbled_world) /\
  db.getFiles garbled_world = (inr [], garbled_world) /\
  (forall id, db.getFileById id garbled_world = (inr None, garbled_world)) /\
  db.getStats garbled_world = (inr (mkStats 0 0 ∅), garbled_world) /\
  (forall id, db.deleteFile id garbled_world = (inr None, garbled_world)) /\
  (forall fileInfo,
     db.addFile fileInfo garbled_world
       = db.addFile fileInfo (set_db (mkData [] 1) garbled_world)).
Proof.
  split; [reflexivity|].
  apply (read_unparsable_is_empty garbled_world (Error "Unexpected token in JSON")).
  reflexivity.
Defined.

(** C4: on a store without records [db.getStats] returns
    [{ totalFiles: 0, totalSize: 0, byType: {} }]. *)
Theorem getStats_empty (w : World) :
  files (current w) = [] ->
  db.getStats w = (inr (mkStats 0 0 ∅), w).
Proof.
  intros H. unfold db.getStats.
  rewrite (bind_run _ _ _ _ _ (getFiles_run w)), H. reflexivity.
Qed.

Lemma getStats_empty_witness :
  files (current sample_world) = [] /\
  db.getStats sample_world = (inr (mkStats 0 0 ∅), sample_world).
Proof. split; [reflexivity|]. apply getStats_empty. reflexivity. Defined.

(** *** Identifiers *)

(** In every case the ids given do not decrease and are not below the
    [nextId] of the start. *)
Lemma run_calls_ids (calls : list DbCall) (w : World) :
  StronglySorted Z.le (map File.id (run_calls calls w).1) /\
  Forall (fun i => nextId (current w) <= i) (map File.id (run_calls calls w).1) /\
  nextId (current w) <= nextId (current (run_calls calls w).2).
Proof.
  revert w. induction calls as [|[fileInfo | id] calls IH]; intros w; simpl.
  - repeat split; [constructor | constructor | lia].
  - rewrite addFile_run.
    match goal with |- context [run_calls calls ?w1] =>
      specialize (IH w1); destruct (run_calls calls w1) as [added w2] end.
    simpl in *. destruct IH as (Hs & Hb & Hn).
    pose proof (incr_ge (nextId (current w))) as Hge.
    repeat split.
    + constructor; [assumption|].
      eapply Forall_impl; [exact Hb|]. simpl. intros i Hi. lia.
    + constructor; [lia|].
      eapply Forall_impl; [exact Hb|]. simpl. intros i Hi. lia.
    + lia.
  - specialize (IH (db.deleteFile id w).2).
    destruct (deleteFile_effect id w) as (Hn & _).
    simpl in Hn. rewrite Hn in IH. exact IH.
Qed.

(** While the ids are safe integers they increase. *)
Lemma run_calls_ids_exact (calls : list DbCall) (w : World) :
  exact_ids (length calls) (current w) ->
  StronglySorted Z.lt (map File.id (run_calls calls w).1).
Proof.
  revert w. induction calls as [|[fileInfo | id] calls IH]; intros w [Hlo Hhi]; simpl.
  - constructor.
  - rewrite addFile_run.
    match goal with |- context [run_calls calls ?w1] =>
      specialize (IH w1); pose proof (run_calls_ids calls w1) as (_ & Hb & _);
      destruct (run_calls calls w1) as [added w2] end.
    simpl in *. rewrite incr_exact in * by lia.
    constructor; [apply IH; split; simpl; lia|].
    eapply Forall_impl; [exact Hb|]. simpl. intros i Hi. lia.
  - apply IH. destruct (deleteFile_effect id w) as (Hn & _). simpl in Hn.
    simpl in *. split; rewrite Hn; lia.
Qed.

Lemma StronglySorted_lt_NoDup (l : list Z) : StronglySorted Z.lt l -> NoDup l.
Proof.
  induction 1 as [|x l Hs IH Hx]; constructor; [|assumption].
  intros Hin. rewrite Forall_forall in Hx. specialize (Hx x Hin). lia.
Qed.

(** C2, as stated, fails on a store whose [nextId] is 2^53, the first
    integer a double cannot step from: [nextId++] leaves 2^53, and two
    records added one after the other both get the id 2^53. *)
Lemma addFile_ids_repeat :
  nextId (current full_world) = 2 ^ 53 /\
  map File.id (run_calls [Append sample_info; Append sample_info] full_world).1
    = [2 ^ 53; 2 ^ 53] /\
  ~ StronglySorted Z.lt
      (map File.id (run_calls [Append sample_info; Append sample_info] full_world).1) /\
  ~ NoDup
      (map File.id (run_calls [Append sample_info; Append sample_info] full_world).1).
Proof.
  assert (Hids : map File.id
             (run_calls [Append sample_info; Append sample_info] full_world).1
           = [2 ^ 53; 2 ^ 53]) by reflexivity.
  split; [reflexivity|]. split; [exact Hids|]. rewrite Hids. split.
  - intros Hs. inversion Hs as [|? ? _ Hlt]. inversion Hlt. lia.
  - intros Hnd. apply NoDup_cons in Hnd as [Hnotin _].
    apply Hnotin. left.
Qed.

(** C2 (amended): along every sequence of [db.addFile] and [db.deleteFile]
    calls, from every state of the store, [nextId] does not decrease and
    the ids given to the added records do not decrease; as long as they
    are safe integers ([nextId] is not below -2^53 and [nextId] plus the
    number of calls is not above 2^53) the ids are strictly increasing and
    pairwise different. *)
Theorem addFile_ids_increasing (calls : list DbCall) (w : World) :
  nextId (current w) <= nextId (current (run_calls calls w).2) /\
  StronglySorted Z.le (map File.id (run_calls calls w).1) /\
  (exact_ids (length calls) (current w) ->
   StronglySorted Z.lt (map File.id (run_calls calls w).1) /\
   NoDup (map File.id (run_calls calls w).1)).
Proof.
  destruct (run_calls_ids calls w) as (Hs & _ & Hn).
  split; [assumption|]. split; [assumption|]. intros Hx.
  pose proof (run_calls_ids_exact calls w Hx) as Hlt.
  split; [assumption | now apply StronglySorted_lt_NoDup].
Qed.

Lemma addFile_ids_increasing_witness :
  exact_ids (length [Append sample_info; Remove "1"; Append sample_info])
    (current twins_world) /\
  StronglySorted Z.lt
    (map File.id
       (run_calls [Append sample_info; Remove "1"; Append sample_info]
          twins_world).1) /\
  NoDup
    (map File.id
       (run_calls [Append sample_info; Remove "1"; Append sample_info]
          twins_world).1).
Proof.
  assert (H : exact_ids (length [Append sample_info; Remove "1"; Append sample_info])
                (current twins_world)) by (split; simpl; lia).
  split; [exact H|].
  exact (proj2 (proj2 (addFile_ids_increasing
                         [Append sample_info; Remove "1"; Append sample_info]
                         twins_world)) H).
Defined.

(** *** Listing *)

Lemma sort_insert_perm {A} (cmp : A -> A -> Z) (x : A) (l : list A) :
  Permutation (JS.sort_insert cmp x l) (x :: l).
Proof.
  induction l as [|y l IH]; simpl.
  - reflexivity.
  - destruct (cmp x y >? 0).
    + rewrite IH. apply perm_swap.
    + reflexivity.
Qed.

Lemma sort_perm {A} (cmp : A -> A -> Z) (l : list A) :
  Permutation (JS.sort cmp l) l.
Proof.
  induction l as [|x l IH]; simpl.
  - reflexivity.
  - rewrite sort_insert_perm. now constructor.
Qed.

Lemma sort_insert_sorted (x : File.t) (l : list File.t) :
  StronglySorted newest_first l ->
  StronglySorted newest_first (JS.sort_insert db.byUploadDate x l).
Proof.
  induction 1 as [|y l Hs IH Hy]; simpl.
  - repeat constructor.
  - unfold db.byUploadDate at 1.
    destruct (Z.gtb_spec (File.uploadDate y - File.uploadDate x) 0) as [Hgt | Hle].
    + constructor; [assumption|].
      rewrite sort_insert_perm. constructor; [|assumption].
      unfold newest_first. lia.
    + constructor; [now constructor|].
      constructor; [unfold newest_first; lia|].
      eapply Forall_impl; [exact Hy|]. unfold newest_first. simpl. intros z Hz. lia.
Qed.

Lemma sort_sorted (l : list File.t) :
  StronglySorted newest_first (JS.sort db.byUploadDate l).
Proof.
  induction l as [|x l IH]; simpl; [constructor | now apply sort_insert_sorted].
Qed.

Lemma sort_insert_stable (t : Z) (x : File.t) (l : list File.t) :
  List.filter (uploaded_at t) (JS.sort_insert db.byUploadDate x l) =
  List.filter (uploaded_at t) (x :: l).
Proof.
  induction l as [|y l IH]; simpl.
  - reflexivity.
  - unfold db.byUploadDate at 1.
    destruct (Z.gtb_spec (File.uploadDate y - File.uploadDate x) 0) as [Hgt | Hle].
    + simpl. rewrite IH. simpl. unfold uploaded_at.
      destruct (Z.eqb_spec (File.uploadDate x) t) as [Hx | Hx];
        destruct (Z.eqb_spec (File.uploadDate y) t) as [Hy | Hy];
        try reflexivity; lia.
    + reflexivity.
Qed.

Lemma sort_stable (t : Z) (l : list File.t) :
  List.filter (uploaded_at t) (JS.sort db.byUploadDate l) =
  List.filter (uploaded_at t) l.
Proof.
  induction l as [|x l IH]; simpl.
  - reflexivity.
  - rewrite sort_insert_stable. simpl. now rewrite IH.
Qed.

(** C3: in every state of the store [db.getFiles] returns the records of
    the store, ordered by [uploadDate] with the most recent first, and the
    records of one [uploadDate] stand in the order they have in the store. *)
Theorem getFiles_sorted_stable (w : World) :
  exists l,
    db.getFiles w = (inr l, w) /\
    Permutation l (files (current w)) /\
    StronglySorted newest_first l /\
    forall t, List.filter (uploaded_at t) l =
              List.filter (uploaded_at t) (files (current w)).
Proof.
  exists (JS.sort db.byUploadDate (files (current w))).
  split; [apply getFiles_run|].
  split; [apply sort_perm|].
  split; [apply sort_sorted|].
  intros t. apply sort_stable.
Qed.

(** ** Paths and the file system *)

Lemma append_nil_r (s : string) : s +:+ EmptyString = s.
Proof.
  induction s as [|c s IH]; [reflexivity|].
  change (String c s +:+ EmptyString) with (String c (s +:+ EmptyString)).
  now rewrite IH.
Qed.

Lemma segments_plain (s : string) :
  JS.all_chars (fun c => negb (Ascii.eqb c path.slash)) s = true ->
  path.segments s = [s].
Proof.
  induction s as [|c s IH]; simpl; [reflexivity|].
  intros [Hc Hs]%andb_prop. apply negb_true_iff in Hc. rewrite Hc, (IH Hs).
  reflexivity.
Qed.

Lemma trailingSeparator_plain (s : string) :
  JS.all_chars (fun c => negb (Ascii.eqb c path.slash)) s = true ->
  path.trailingSeparator s = false.
Proof.
  induction s as [|c s IH]; simpl; [reflexivity|].
  intros [Hc Hs]%andb_prop. apply negb_true_iff in Hc.
  destruct s; [exact Hc | exact (IH Hs)].
Qed.

Lemma strip_slash_plain (s : string) :
  JS.all_chars (fun c => negb (Ascii.eqb c path.slash)) s = true ->
  fs.strip_slash s = s.
Proof.
  induction s as [|c s IH]; simpl; [reflexivity|].
  intros [Hc Hs]%andb_prop. apply negb_true_iff in Hc.
  destruct s; [now rewrite Hc | now rewrite (IH Hs)].
Qed.

(** A plain name joined to the upload directory needs no normalisation. *)
Lemma plain_join (name : string) :
  plain_name name -> path.join UPLOAD_DIR name = "uploads/" +:+ name.
Proof.
  intros (Hne & Hslash & Hdot & Hdots).
  apply String.eqb_neq in Hne, Hdot, Hdots.
  unfold path.join, UPLOAD_DIR. rewrite Hne.
  change (String.eqb "uploads" EmptyString) with false. cbv iota.
  unfold path.normalize.
  change (String.eqb ("uploads" +:+ "/" +:+ name) EmptyString) with false.
  change (path.isAbsolute ("uploads" +:+ "/" +:+ name)) with false.
  cbv iota. cbn [negb].
  assert (Hseg : path.segments ("uploads" +:+ "/" +:+ name) = ["uploads"; name]).
  { simpl. change (EmptyString +:+ name) with name.
    now rewrite (segments_plain _ Hslash). }
  rewrite Hseg. cbn [path.resolve].
  change (String.eqb "uploads" EmptyString) with false.
  change (String.eqb "uploads" ".") with false.
  change (String.eqb "uploads" "..") with false.
  cbn [orb]. cbv iota. rewrite Hne, Hdot, Hdots. cbn [orb rev app path.join_segments].
  assert (Htr : path.trailingSeparator ("uploads" +:+ "/" +:+ name) = false).
  { pose proof (trailingSeparator_plain _ Hslash) as H.
    simpl. change (EmptyString +:+ name) with name.
    destruct name; [discriminate | exact H]. }
  rewrite Htr.
  change (String.eqb ("uploads" +:+ "/" +:+ name) EmptyString) with false.
  cbv iota. change (EmptyString +:+ ?x) with x.
  now rewrite append_nil_r.
Qed.

(** It is the path of an entry of the upload directory: no directory of
    the model, and not the database file. *)
Lemma upload_entry (name : string) :
  plain_name name ->
  fs.is_directory (path.join UPLOAD_DIR name) = false /\
  String.eqb (path.join UPLOAD_DIR name) dbPath = false.
Proof.
  intros Hplain. rewrite (plain_join _ Hplain).
  destruct Hplain as (Hne & Hslash & _). split; [|reflexivity].
  unfold fs.is_directory.
  assert (Hs : fs.strip_slash ("uploads/" +:+ name) = "uploads/" +:+ name).
  { pose proof (strip_slash_plain _ Hslash) as H.
    simpl. change (EmptyString +:+ name) with name.
    destruct name; [congruence|]. now rewrite H. }
  rewrite Hs. reflexivity.
Qed.

Lemma existsSync_run (p : string) (w : World) :
  fs.existsSync p w =
    (inr (bool_decide (is_Some (disk w !! p)) || fs.is_directory p
          || (String.eqb p dbPath && fs.db_present w)), w).
Proof. reflexivity. Qed.

Lemma existsSync_present (p : string) (bytes : list Byte.byte) (w : World) :
  disk w !! p = Some bytes -> fs.existsSync p w = (inr true, w).
Proof.
  intros H. rewrite existsSync_run, H.
  rewrite bool_decide_eq_true_2 by eauto. reflexivity.
Qed.

Lemma existsSync_absent (name : string) (w : World) :
  plain_name name ->
  disk w !! path.join UPLOAD_DIR name = None ->
  fs.existsSync (path.join UPLOAD_DIR name) w = (inr false, w).
Proof.
  intros Hplain H. rewrite existsSync_run, H.
  destruct (upload_entry name Hplain) as [-> ->].
  rewrite bool_decide_eq_false_2 by (intros [x Hx]; discriminate). reflexivity.
Qed.

Lemma unlinkSync_run (p : string) (bytes : list Byte.byte) (w : World) :
  disk w !! p = Some bytes ->
  fs.unlinkSync p w =
    (inr tt, mkWorld (dbFile w) (delete p (disk w)) (clock w) (reads w)).
Proof. intros H. unfold fs.unlinkSync. unfold_M. now rewrite H. Qed.

(** [fs.unlinkSync] leaves the database file as it is, or removes it. *)
Lemma unlinkSync_cases (p : string) (w : World) :
  exists out w',
    fs.unlinkSync p w = (out, w') /\
    (dbFile w' = dbFile w \/ dbFile w' = Missing).
Proof.
  unfold fs.unlinkSync. unfold_M. destruct (disk w !! p); [eauto|].
  destruct (_ && _); [eauto|]. destruct (fs.is_directory p); eauto.
Qed.

(** ** The delete route *)

Lemma delete_file_run (id : string) (w : World) :
  exists resp w',
    delete_file id w = (inr resp, w') /\
    uploaded_of (inr resp) = [] /\
    (dbFile w' = dbFile (db.deleteFile id w).2 \/ dbFile w' = Missing).
Proof.
  unfold delete_file, try_catch.
  destruct (deleteFile_cases id w)
    as [[_ Hrun] | (l1 & f & l2 & _ & _ & _ & Hrun)];
    rewrite (bind_run _ _ _ _ _ Hrun), Hrun.
  - simpl. eexists _, _. repeat split; auto.
  - set (w1 := set_db (mkData (l1 ++ l2) (nextId (current w))) w).
    rewrite (bind_run _ _ _ _ _ (existsSync_run _ w1)).
    destruct (_ || _ || _).
    + destruct (unlinkSync_cases (path.join UPLOAD_DIR (File.filename f)) w1)
        as ([e | []] & w2 & Hun & Hdb).
      * rewrite (bind_throw _ _ _ _ _ Hun). simpl.
        eexists _, _. repeat split; auto.
      * rewrite (bind_run _ _ _ _ _ Hun). simpl.
        eexists _, _. repeat split; auto.
    + simpl. eexists _, _. repeat split; auto.
Qed.

Lemma delete_file_skips_blob (id : string) (w : World) (file : File.t) :
  (db.getFileById id w).1 = inr (Some file) ->
  plain_name (File.filename file) ->
  disk w !! path.join UPLOAD_DIR (File.filename file) = None ->
  exists l1 l2,
    files (current w) = l1 ++ file :: l2 /\
    Forall (fun g => db.id_is id g = false) l1 /\
    delete_file id w =
      (inr (mkResponse 200 (DeleteResult true "File deleted successfully")),
       set_db (mkData (l1 ++ l2) (nextId (current w))) w).
Proof.
  rewrite getFileById_run. simpl. intros Hfind Hplain Hdisk.
  destruct (deleteFile_cases id w)
    as [[Hnone _] | (l1 & f & l2 & Hl & H1 & Hf & Hrun)].
  - rewrite (find_none _ _ Hnone) in Hfind. discriminate.
  - rewrite Hl, (find_at _ _ _ _ H1 Hf) in Hfind.
    assert (f = file) as -> by congruence.
    exists l1, l2. repeat split; try assumption.
    unfold delete_file, try_catch.
    rewrite (bind_run _ _ _ _ _ Hrun).
    set (w1 := set_db (mkData (l1 ++ l2) (nextId (current w))) w).
    rewrite (bind_run _ _ _ _ _ (existsSync_absent _ w1 Hplain Hdisk)).
    reflexivity.
Qed.




(** ** Stored names *)

Lemma all_chars_append (p : ascii -> bool) (a b : string) :
  JS.all_chars p (a +:+ b) = JS.all_chars p a && JS.all_chars p b.
Proof.
  induction a as [|c a IH]; simpl; [reflexivity|].
  now rewrite IH, andb_assoc.
Qed.

Lemma all_chars_map (p q : ascii -> bool) (f : ascii -> ascii) (s : string) :
  (forall c, q c = true -> p (f c) = true) ->
  JS.all_chars q s = true -> JS.all_chars p (JS.map_chars f s) = true.
Proof.
  intros Hf. induction s as [|c s IH]; simpl; [reflexivity|].
  intros [Hc Hs]%andb_prop. rewrite (Hf c Hc), (IH Hs). reflexivity.
Qed.

Lemma all_chars_true (s : string) : JS.all_chars (fun _ => true) s = true.
Proof. induction s; simpl; auto. Qed.

Lemma safe_char_not_separator (c : ascii) : not_separator (safe_char c) = true.
Proof. destruct c as [[] [] [] [] [] [] [] []]; reflexivity. Qed.

Lemma stamp_char_not_separator (c : ascii) :
  not_separator c = true -> not_separator (stamp_char c) = true.
Proof. destruct c as [[] [] [] [] [] [] [] []]; auto. Qed.

Lemma digit_not_separator (d : Z) : not_separator (JS.digit d) = true.
Proof.
  unfold JS.digit. destruct d as [|p|p]; try reflexivity.
  repeat (destruct p as [p|p|]; try reflexivity).
Qed.

Lemma pad_no_separator (width : nat) (n : Z) :
  JS.all_chars not_separator (JS.pad width n) = true.
Proof.
  revert n. induction width as [|k IH]; intros n; simpl; [reflexivity|].
  rewrite all_chars_append, IH. simpl. now rewrite digit_not_separator.
Qed.

Lemma toISOString_no_separator (t : Z) :
  JS.all_chars not_separator (JS.toISOString t) = true.
Proof.
  unfold JS.toISOString. destruct (JS.civil _) as [[y m] d].
  assert (Hy : JS.all_chars not_separator (JS.year_text y) = true).
  { unfold JS.year_text. destruct (_ && _); [apply pad_no_separator|].
    rewrite all_chars_append, pad_no_separator. now destruct (y <? 0). }
  repeat (rewrite all_chars_append; rewrite ?pad_no_separator, ?Hy; simpl).
  rewrite ?digit_not_separator. reflexivity.
Qed.

Lemma stored_name_no_separator (now : Z) (originalname : string) :
  no_separator (stored_name now originalname) = true.
Proof.
  unfold no_separator, stored_name.
  rewrite !all_chars_append. simpl.
  rewrite (all_chars_map not_separator not_separator stamp_char);
    [| apply stamp_char_not_separator | apply toISOString_no_separator].
  rewrite (all_chars_map not_separator (fun _ => true) safe_char);
    [reflexivity | intros c _; apply safe_char_not_separator | apply all_chars_true].
Qed.

Lemma has_underscore_append (a b : string) :
  has_underscore (a +:+ b) = has_underscore a || has_underscore b.
Proof.
  induction a as [|c a IH]; simpl; [reflexivity|]. now rewrite IH, orb_assoc.
Qed.

(** A stored name holds an underscore: it is neither [.] nor [..]. *)
Lemma stored_name_not_dots (now : Z) (originalname : string) :
  stored_name now originalname <> "." /\ stored_name now originalname <> "..".
Proof.
  assert (H : has_underscore (stored_name now originalname) = true).
  { unfold stored_name. rewrite !has_underscore_append. simpl.
    now rewrite orb_true_r. }
  split; intros E; rewrite E in H; discriminate.
Qed.

Lemma no_separator_no_slash (s : string) :
  no_separator s = true ->
  JS.all_chars (fun c => negb (Ascii.eqb c path.slash)) s = true.
Proof.
  unfold no_separator. induction s as [|c s IH]; simpl; [reflexivity|].
  intros [Hc Hs]%andb_prop. rewrite (IH Hs), andb_true_r.
  unfold not_separator, is_separator in Hc.
  apply negb_true_iff, orb_false_elim in Hc as [Hc _].
  apply negb_true_iff. exact Hc.
Qed.

Lemma stored_name_plain (now : Z) (originalname : string) :
  plain_name (stored_name now originalname).
Proof.
  destruct (stored_name_not_dots now originalname) as [Hdot Hdots].
  repeat split; try assumption.
  - assert (H : has_underscore (stored_name now originalname) = true).
    { unfold stored_name. rewrite !has_underscore_append. simpl.
      now rewrite orb_true_r. }
    intros E. rewrite E in H. discriminate.
  - apply no_separator_no_slash, stored_name_no_separator.
Qed.

Lemma stored_file_fields (w : World) (p : Part.t) :
  MulterFile.originalname (stored_file w p) = file_name p /\
  MulterFile.filename (stored_file w p)
    = stored_name (clock w (reads w)) (file_name p) /\
  MulterFile.path (stored_file w p)
    = path.join UPLOAD_DIR (MulterFile.filename (stored_file w p)) /\
  MulterFile.size (stored_file w p) = Z.of_nat (length (Part.content p)).
Proof.
  unfold stored_file.
  cbn [MulterFile.originalname MulterFile.filename MulterFile.path MulterFile.size].
  repeat split.
Qed.

(** The file multer stores is an entry of the upload directory. *)
Lemma stored_file_beside_db (w : World) (p : Part.t) : beside_db (stored_file w p).
Proof.
  destruct (stored_file_fields w p) as (_ & Hn & Hp & _).
  unfold beside_db. rewrite Hp, Hn. apply upload_entry, stored_name_plain.
Qed.

(** *** The base name busboy gives *)

Lemma last_segment_no_separator (name : string) :
  no_separator (busboy.last_segment name) = true.
Proof.
  induction name as [|c name IH]; simpl; [reflexivity|].
  destruct (is_separator c) eqn:Hc; [exact IH|].
  destruct (no_separator name) eqn:Hn; [|exact IH].
  unfold no_separator in *. simpl. unfold not_separator at 1. now rewrite Hc, Hn.
Qed.

Lemma basename_no_separator (name : string) :
  no_separator (busboy.basename name) = true.
Proof.
  unfold busboy.basename. destruct (_ || _); [reflexivity|].
  apply last_segment_no_separator.
Qed.

(** A name without a path is its own base name. *)
Lemma basename_plain (name : string) :
  no_separator name = true -> name <> "." -> name <> ".." ->
  busboy.basename name = name.
Proof.
  intros Hsep Hdot Hdots.
  assert (Hlast : busboy.last_segment name = name).
  { destruct name as [|c name]; [reflexivity|]. simpl.
    unfold no_separator in Hsep. simpl in Hsep.
    apply andb_prop in Hsep as [Hc Hn]. unfold not_separator in Hc.
    apply negb_true_iff in Hc. rewrite Hc.
    unfold no_separator. now rewrite Hn. }
  unfold busboy.basename. rewrite Hlast.
  apply String.eqb_neq in Hdot, Hdots. now rewrite Hdot, Hdots.
Qed.

(** It is empty, or neither [.] nor [..]. *)
Lemma basename_not_dots (name : string) :
  busboy.basename name <> "." /\ busboy.basename name <> "..".
Proof.
  unfold busboy.basename.
  destruct (String.eqb_spec (busboy.last_segment name) "..") as [E | Hdots];
    [split; discriminate|].
  destruct (String.eqb_spec (busboy.last_segment name) ".") as [E | Hdot];
    [split; discriminate|].
  simpl. split; assumption.
Qed.

(** ** The file filter *)

Lemma current_dbFile (w w' : World) : dbFile w' = dbFile w -> current w' = current w.
Proof. unfold current. now intros ->. Qed.

Lemma fileFilter_disallowed (originalname : string) :
  disallowed originalname ->
  fileFilter originalname =
    inl (Error ("File type " +:+ JS.toLowerCase (path.extname originalname)
                  +:+ " is not allowed")).
Proof. unfold disallowed, fileFilter. now intros ->. Qed.

Lemma fileFilter_accepted (originalname : string) :
  fileFilter originalname = inr true ->
  exists t, ALLOWED_EXTENSIONS !! JS.toLowerCase (path.extname originalname) = Some t
            /\ type_of originalname = t.
Proof.
  unfold fileFilter, type_of.
  destruct (ALLOWED_EXTENSIONS !! _) as [t|]; [|discriminate].
  intros _. now exists t.
Qed.

Lemma ALLOWED_EXTENSIONS_values (ext t : string) :
  ALLOWED_EXTENSIONS !! ext = Some t -> allowed_type t.
Proof.
  unfold ALLOWED_EXTENSIONS. intros H%elem_of_list_to_map_2.
  unfold allowed_type.
  repeat (apply elem_of_cons in H as [[= _ <-] | H]; [tauto|]).
  now apply elem_of_nil in H.
Qed.

Lemma recorded_from_allowed (w w' : World) (parts : list Part.t) (r : File.t) :
  recorded_from w w' parts r -> allowed_type (File.type r).
Proof.
  intros (p & now & _ & _ & Hfilter & _ & _ & _ & ->).
  apply fileFilter_accepted in Hfilter as (t & Hlookup & ->).
  eapply ALLOWED_EXTENSIONS_values, Hlookup.
Qed.

Lemma fileFilter_allowed (originalname : string) :
  ~ disallowed originalname -> fileFilter originalname = inr true.
Proof.
  unfold disallowed, fileFilter.
  destruct (ALLOWED_EXTENSIONS !! _); [reflexivity | congruence].
Qed.

(** ** The multer middleware *)

Lemma filename_run (originalname : string) (w : World) :
  storage.filename originalname w =
    (inr (stored_name (clock w (reads w)) originalname), tick w).
Proof. unfold stored_name, storage.filename. reflexivity. Qed.

Lemma removeUploadedFiles_run (stored : list MulterFile.t) (w : World) :
  Forall beside_db stored ->
  exists w', multer.removeUploadedFiles stored w = (inr tt, w') /\
             dbFile w' = dbFile w.
Proof.
  intros H. revert w. induction H as [|f stored Hf _ IH]; intros w; simpl.
  - now exists w.
  - unfold fs.unlinkSync. unfold_M. simpl. unfold beside_db in Hf. rewrite Hf.
    simpl.
    destruct (disk w !! MulterFile.path f); simpl;
      [|destruct (fs.is_directory _); simpl];
      match goal with |- context [multer.removeUploadedFiles stored ?w1] =>
        destruct (IH w1) as (w' & -> & Hdb) end;
      exists w'; split; auto.
Qed.

Lemma abortWithError_run {A} (stored : list MulterFile.t) (e : Exn) (w : World) :
  Forall beside_db stored ->
  exists w', multer.abortWithError (A := A) stored e w = (inl e, w') /\
             dbFile w' = dbFile w.
Proof.
  intros H. destruct (removeUploadedFiles_run stored w H) as (w' & Hrun & Hdb).
  exists w'. split; [|assumption].
  unfold multer.abortWithError. unfold_M. now rewrite Hrun.
Qed.

(** What the middleware does with the first part: it skips a part
    without a name, refuses the request, or stores the part. *)
Lemma handle_parts_step (field : string) (filesLeft : Z) (p : Part.t)
    (rest : list Part.t) (stored : list MulterFile.t) (w : World) :
  Forall beside_db stored ->
  (file_name p = EmptyString /\
   multer.handle_parts field filesLeft (p :: rest) stored w =
     multer.handle_parts field filesLeft rest stored w) \/
  (file_name p <> EmptyString /\
   exists e w',
     multer.handle_parts field filesLeft (p :: rest) stored w = (inl e, w') /\
     dbFile w' = dbFile w /\
     ((e = MulterError "LIMIT_UNEXPECTED_FILE" /\
       (Part.fieldname p <> field \/ filesLeft <= 0)) \/
      (Part.fieldname p = field /\ 0 < filesLeft /\
       disallowed (file_name p) /\
       e = Error (filter_message (file_name p))) \/
      (Part.fieldname p = field /\ 0 < filesLeft /\
       ~ disallowed (file_name p) /\
       MAX_FILE_SIZE <= Z.of_nat (length (Part.content p)) /\
       e = MulterError "LIMIT_FILE_SIZE"))) \/
  (accepted field p /\ 0 < filesLeft /\
   multer.handle_parts field filesLeft (p :: rest) stored w =
     multer.handle_parts field (filesLeft - 1) rest
       (stored ++ [stored_file w p]) (store_part w p)).
Proof.
  intros Hstored. cbn [multer.handle_parts]. fold (file_name p).
  destruct (String.eqb_spec (file_name p) EmptyString) as [Hname | Hname];
    [left; split; [assumption | reflexivity]|].
  right.
  destruct (decide (Part.fieldname p = field)) as [Hfield | Hfield];
    [rewrite bool_decide_eq_true_2 by assumption
    |rewrite bool_decide_eq_false_2 by assumption]; cbn [negb orb].
  2: { left. split; [assumption|].
       destruct (abortWithError_run (A := list MulterFile.t) stored
                   (MulterError "LIMIT_UNEXPECTED_FILE") w Hstored)
         as (w' & Hrun & Hdb).
       eexists _, w'. split; [exact Hrun|]. split; [exact Hdb|]. left. auto. }
  destruct (Z.leb_spec filesLeft 0) as [Hleft | Hleft].
  { left. split; [assumption|].
    destruct (abortWithError_run (A := list MulterFile.t) stored
                (MulterError "LIMIT_UNEXPECTED_FILE") w Hstored)
      as (w' & Hrun & Hdb).
    eexists _, w'. split; [exact Hrun|]. split; [exact Hdb|]. left. auto. }
  destruct (ALLOWED_EXTENSIONS !! JS.toLowerCase (path.extname (file_name p)))
    as [t|] eqn:Hext.
  2: { left. split; [assumption|].
       rewrite (fileFilter_disallowed _ Hext).
       destruct (abortWithError_run (A := list MulterFile.t) stored
                   (Error (filter_message (file_name p))) w Hstored)
         as (w' & Hrun & Hdb).
       eexists _, w'. split; [exact Hrun|]. split; [exact Hdb|].
       right. left. auto. }
  assert (Hok : ~ disallowed (file_name p)) by (unfold disallowed; congruence).
  rewrite (fileFilter_allowed _ Hok).
  rewrite (bind_run _ _ _ _ _ (filename_run _ w)).
  destruct (Z.geb_spec (Z.of_nat (length (Part.content p))) MAX_FILE_SIZE)
    as [Hsize | Hsize].
  - left. split; [assumption|].
    destruct (abortWithError_run (A := list MulterFile.t) stored
                (MulterError "LIMIT_FILE_SIZE") (tick w) Hstored)
      as (w' & Hrun & Hdb).
    eexists _, w'. split; [exact Hrun|]. split; [exact Hdb|].
    right. right. repeat split; auto; lia.
  - right. split; [|split; [assumption | reflexivity]].
    repeat split; assumption.
Qed.

Lemma handle_parts_db (field : string) (parts : list Part.t) (filesLeft : Z)
    (stored : list MulterFile.t) (w : World) :
  Forall beside_db stored ->
  dbFile (multer.handle_parts field filesLeft parts stored w).2 = dbFile w.
Proof.
  revert filesLeft stored w.
  induction parts as [|p parts IH]; intros filesLeft stored w Hstored;
    [reflexivity|].
  destruct (handle_parts_step field filesLeft p parts stored w Hstored)
    as [[_ ->] | [(_ & e & w' & -> & Hdb & _) | (_ & _ & ->)]].
  - now apply IH.
  - exact Hdb.
  - rewrite IH; [reflexivity|].
    apply Forall_app. split; [assumption|].
    repeat constructor. apply stored_file_beside_db.
Qed.


Lemma read_between_weaken (w1 w2 w1' w2' : World) (now : Z) :
  clock w1' = clock w1 -> (reads w1' <= reads w1)%nat ->
  (reads w2 <= reads w2')%nat ->
  read_between w1 w2 now -> read_between w1' w2' now.
Proof.
  intros Hclock Hlo Hhi (k & Hk & ->). exists k. rewrite Hclock. split; [lia | reflexivity].
Qed.

Lemma stored_from_weaken (w1 w2 w1' w2' : World) (parts parts' : list Part.t)
    (file : MulterFile.t) :
  clock w1' = clock w1 -> (reads w1' <= reads w1)%nat ->
  (reads w2 <= reads w2')%nat ->
  (forall p, In p parts -> In p parts') ->
  stored_from w1 w2 parts file -> stored_from w1' w2' parts' file.
Proof.
  intros Hclock Hlo Hhi Hin (p & now & Hp & Hnow & Hrest).
  exists p, now. split; [now apply Hin|].
  split; [now apply (read_between_weaken w1 w2) | exact Hrest].
Qed.

Lemma stored_from_file (w : World) (p : Part.t) (parts : list Part.t) :
  In p parts -> ~ disallowed (file_name p) ->
  stored_from w (store_part w p) parts (stored_file w p).
Proof.
  intros Hin Hok. exists p, (clock w (reads w)).
  destruct (stored_file_fields w p) as (Ho & Hn & Hp & _).
  split; [assumption|].
  split; [exists (reads w); simpl; split; [lia | reflexivity]|].
  split; [now apply fileFilter_allowed|].
  split; [exact Ho|]. split; [exact Hn | exact Hp].
Qed.

(** The files of a request: each is stored for an accepted part, under
    a name made with an instant the clock gave meanwhile. *)
Lemma handle_parts_files (field : string) (parts : list Part.t) (filesLeft : Z)
    (stored files : list MulterFile.t) (w w' : World) :
  Forall beside_db stored ->
  multer.handle_parts field filesLeft parts stored w = (inr files, w') ->
  clock w' = clock w /\ (reads w <= reads w')%nat /\
  exists new, files = stored ++ new /\ Forall (stored_from w w' parts) new /\
              (length new <= length parts)%nat.
Proof.
  revert filesLeft stored w.
  induction parts as [|p parts IH]; intros filesLeft stored w Hstored.
  - simpl. intros [= <- <-]. split; [reflexivity|]. split; [lia|]. exists [].
    split; [now rewrite app_nil_r|]. split; [constructor | simpl; lia].
  - destruct (handle_parts_step field filesLeft p parts stored w Hstored)
      as [[_ ->] | [(_ & e & w1 & -> & _) | ([_ [_ Hok]] & _ & ->)]].
    + intros Hrun.
      apply IH in Hrun as (Hclock & Hreads & new & -> & Hnew & Hlen); [|assumption].
      split; [assumption|]. split; [assumption|].
      exists new. split; [reflexivity|]. split; [|simpl; lia].
      eapply Forall_impl; [exact Hnew|]. intros f.
      apply stored_from_weaken; try lia; auto; intros q Hq; now right.
    + discriminate.
    + intros Hrun.
      apply IH in Hrun as (Hclock & Hreads & new & -> & Hnew & Hlen).
      * simpl in Hclock, Hreads.
        split; [assumption|]. split; [lia|].
        exists (stored_file w p :: new). split; [now rewrite <- app_assoc|].
        split; [|simpl; lia].
        constructor.
        -- apply (stored_from_weaken w (store_part w p) w w' (p :: parts));
             auto. apply stored_from_file; [now left | assumption].
        -- eapply Forall_impl; [exact Hnew|]. intros f.
           apply stored_from_weaken; simpl; try lia; auto; intros q Hq; now right.
      * apply Forall_app. split; [assumption|].
        repeat constructor. apply stored_file_beside_db.
Qed.

Lemma stored_with_insert (Q : list Byte.byte -> Prop) (w w' : World)
    (p : string) (bytes : list Byte.byte) (l : list MulterFile.t) :
  disk w' = <[p := bytes]> (disk w) -> Q bytes ->
  Forall (stored_with Q w) l -> Forall (stored_with Q w') l.
Proof.
  intros Hd Hq Hl. eapply Forall_impl; [exact Hl|].
  intros f (b & Hb & Hqb). unfold stored_with. rewrite Hd.
  destruct (decide (p = MulterFile.path f)) as [<- | Hne].
  - exists bytes. now rewrite lookup_insert_eq.
  - exists b. now rewrite lookup_insert_ne.
Qed.


Lemma stored_as_file (w : World) (p : Part.t) : stored_as p (stored_file w p).
Proof.
  destruct (stored_file_fields w p) as (Ho & Hn & Hp & Hs).
  split; [exact Ho|]. split; [exists (clock w (reads w)); exact Hn|].
  split; [exact Hp | exact Hs].
Qed.

(** The accepted parts at the head of a request are stored one by one. *)
Lemma handle_parts_prefix (Q : list Byte.byte -> Prop) (field : string)
    (pre rest : list Part.t) (filesLeft : Z) (stored : list MulterFile.t)
    (w : World) :
  Forall beside_db stored ->
  Forall (accepted field) pre ->
  Forall (fun p => Q (Part.content p)) pre ->
  Z.of_nat (length pre) <= filesLeft ->
  Forall (stored_with Q w) stored ->
  exists new w',
    multer.handle_parts field filesLeft (pre ++ rest) stored w =
      multer.handle_parts field (filesLeft - Z.of_nat (length pre)) rest
        (stored ++ new) w' /\
    Forall2 stored_as pre new /\
    dbFile w' = dbFile w /\
    Forall (stored_with Q w') (stored ++ new) /\
    Forall beside_db (stored ++ new).
Proof.
  intros Hbeside Hpre. revert filesLeft stored w Hbeside.
  induction Hpre as [|p pre (Hname & [Hfield Hsize] & Hok) _ IH];
    intros filesLeft stored w Hbeside Hq Hleft Hstored.
  - exists [], w. rewrite app_nil_r, Z.sub_0_r. simpl. auto.
  - apply Forall_cons in Hq as [Hqp Hq]. simpl in Hleft.
    change ((p :: pre) ++ rest) with (p :: (pre ++ rest)).
    destruct (handle_parts_step field filesLeft p (pre ++ rest) stored w Hbeside)
      as [[Hempty _] | [(_ & e & w1 & _ & _ & Hwhy) | (_ & _ & ->)]].
    + congruence.
    + exfalso.
      destruct Hwhy as [[_ [H | H]] | [(_ & _ & H & _) | (_ & _ & _ & H & _)]];
        [congruence | lia | tauto | lia].
    + assert (Hbeside1 : Forall beside_db (stored ++ [stored_file w p])).
      { apply Forall_app. split; [assumption|].
        repeat constructor. apply stored_file_beside_db. }
      assert (Hleft1 : Z.of_nat (length pre) <= filesLeft - 1) by lia.
      assert (Hstored1 : Forall (stored_with Q (store_part w p))
                           (stored ++ [stored_file w p])).
      { apply Forall_app. split.
        - now apply (stored_with_insert Q w (store_part w p)
                       (MulterFile.path (stored_file w p)) (Part.content p)).
        - repeat constructor. exists (Part.content p). split; [|assumption].
          simpl. apply lookup_insert_eq. }
      destruct (IH (filesLeft - 1) (stored ++ [stored_file w p]) (store_part w p)
                  Hbeside1 Hq Hleft1 Hstored1)
        as (new & w' & Hrun & Hnew & Hdb & Hdisk & Hbeside').
      exists (stored_file w p :: new), w'. rewrite Hrun, <- !app_assoc in *. simpl.
      replace (filesLeft - 1 - Z.of_nat (length pre))
        with (filesLeft - Z.pos (Pos.of_succ_nat (length pre))) by lia.
      repeat split; auto.
      constructor; [apply stored_as_file | assumption].
Qed.



(** ** The upload route *)

Section UploadRoute.
Variable md5_hex : list Byte.byte -> string.

Lemma records_new_file (file : MulterFile.t) (fileHash notes : string) (w : World) :
  records file (new_file (fileInfo_of file fileHash notes) w).
Proof. repeat split. Qed.

Lemma getFileHash_some (filepath : string) (bytes : list Byte.byte) (w : World) :
  disk w !! filepath = Some bytes ->
  getFileHash md5_hex filepath w = (inr (md5_hex bytes), w).
Proof.
  intros H. unfold getFileHash, fs.readFileSync. unfold_M. now rewrite H.
Qed.

Lemma getFileHash_none (filepath : string) (w : World) :
  disk w !! filepath = None ->
  getFileHash md5_hex filepath w = (inl (fs.read_error filepath), w).
Proof.
  intros H. unfold getFileHash, fs.readFileSync. unfold_M. now rewrite H.
Qed.

Lemma upload_file_run (notes : string) (file : MulterFile.t)
    (acc : list File.t * list UploadError) (w : World) :
  (exists bytes r,
     disk w !! MulterFile.path file = Some bytes /\
     r = new_file (fileInfo_of file (md5_hex bytes) notes) w /\
     upload_file md5_hex notes file acc w =
       (inr (acc.1 ++ [r], acc.2),
        set_db (mkData (files (current w) ++ [r]) (JS.incr (nextId (current w))))
          (tick w))) \/
  (exists e,
     disk w !! MulterFile.path file = None /\
     err_filename e = MulterFile.originalname file /\
     upload_file md5_hex notes file acc w = (inr (acc.1, acc.2 ++ [e]), w)).
Proof.
  destruct (disk w !! MulterFile.path file) as [bytes|] eqn:Hdisk.
  - left. exists bytes, (new_file (fileInfo_of file (md5_hex bytes) notes) w).
    split; [reflexivity|]. split; [reflexivity|].
    unfold upload_file, try_catch.
    rewrite (bind_run _ _ _ _ _ (getFileHash_some _ _ _ Hdisk)).
    rewrite (bind_run _ _ _ _ _ (addFile_run _ w)). reflexivity.
  - right. eexists (mkUploadError _ _). split; [reflexivity|].
    unfold upload_file, try_catch.
    rewrite (bind_throw _ _ _ _ _ (getFileHash_none _ _ Hdisk)).
    split; reflexivity.
Qed.

Lemma forEach_file_run (notes : string) (req_files : list MulterFile.t)
    (acc : list File.t * list UploadError) (w : World) :
  exists recs errs w',
    forEach_file md5_hex notes req_files acc w =
      (inr (acc.1 ++ recs, acc.2 ++ errs), w') /\
    files (current w') = files (current w) ++ recs /\
    nextId (current w) <= nextId (current w') /\
    disk w' = disk w /\
    Forall (fun r => exists file, In file req_files /\ records file r) recs /\
    Forall (fun e => exists file, In file req_files /\
                       err_filename e = MulterFile.originalname file) errs /\
    (length recs + length errs = length req_files)%nat /\
    (recs = [] -> dbFile w' = dbFile w) /\
    clock w' = clock w /\ (reads w <= reads w')%nat.
Proof.
  revert acc w. induction req_files as [|file rest IH]; intros acc w; simpl.
  - exists [], [], w. rewrite !app_nil_r. destruct acc.
    repeat split; auto; try constructor. lia.
  - destruct (upload_file_run notes file acc w)
      as [(bytes & r & Hdisk & Hr & Hrun) | (e & Hdisk & He & Hrun)];
      rewrite (bind_run _ _ _ _ _ Hrun);
      match goal with |- context [forEach_file _ _ rest ?acc1 ?w1] =>
        destruct (IH acc1 w1)
          as (recs & errs & w' & -> & Hfiles & Hnext & Hd & Hrecs & Herrs & Hlen
              & Hdb & Hclock & Hreads)
      end; simpl in *.
    + pose proof (incr_ge (nextId (current w))) as Hge.
      exists (r :: recs), errs, w'. rewrite <- app_assoc in *. simpl.
      repeat split; auto; try lia.
      * constructor.
        -- exists file. split; [now left|]. subst r. apply records_new_file.
        -- eapply Forall_impl; [exact Hrecs|].
           intros r' (f & Hf & Hrec). exists f. split; [now right | exact Hrec].
      * eapply Forall_impl; [exact Herrs|].
        intros e (f & Hf & He). exists f. split; [now right | exact He].
      * discriminate.
    + exists recs, (e :: errs), w'. rewrite <- app_assoc. simpl.
      repeat split; auto; try lia.
      * eapply Forall_impl; [exact Hrecs|].
        intros r' (f & Hf & Hrec). exists f. split; [now right | exact Hrec].
      * constructor.
        -- exists file. split; [now left | exact He].
        -- eapply Forall_impl; [exact Herrs|].
           intros e' (f & Hf & He'). exists f. split; [now right | exact He'].
Qed.

End UploadRoute.

(** ** The upload request *)

Section UploadRequest.
Variable md5_hex : list Byte.byte -> string.

Lemma upload_route_run (req_files : list MulterFile.t)
    (req_body_notes : option string) (w : World) :
  exists resp recs errs w',
    upload_route md5_hex req_files req_body_notes w = (inr resp, w') /\
    files (current w') = files (current w) ++ recs /\
    nextId (current w) <= nextId (current w') /\
    disk w' = disk w /\
    Forall (fun r => exists file, In file req_files /\ records file r) recs /\
    (length recs + length errs = length req_files)%nat /\
    (recs = [] -> dbFile w' = dbFile w) /\
    clock w' = clock w /\ (reads w <= reads w')%nat /\
    uploaded_of (inr resp) = recs /\
    (req_files <> [] ->
     resp = mkResponse 200
              (UploadResult (Z.of_nat (length recs) >? 0) recs errs
                 ("Successfully uploaded "
                    +:+ JS.Number_toString (Z.of_nat (length recs))
                    +:+ " file(s)"))).
Proof.
  unfold upload_route, try_catch. destruct req_files as [|file rest].
  - simpl. exists (mkResponse 400 (Failure false "No files uploaded")), [], [], w.
    rewrite app_nil_r. repeat split; auto; try lia. congruence.
  - replace (Z.of_nat (length (file :: rest)) =? 0) with false
      by (symmetry; apply Z.eqb_neq; simpl; lia).
    destruct (forEach_file_run md5_hex (default EmptyString req_body_notes)
                (file :: rest) ([], []) w)
      as (recs & errs & w' & Hrun & Hfiles & Hnext & Hd & Hrecs & _ & Hlen & Hdb
          & Hclock & Hreads).
    rewrite (bind_run _ _ _ _ _ Hrun). simpl.
    eexists _, recs, errs, w'. split; [reflexivity|].
    repeat split; auto.
Qed.

Lemma post_upload_run (req : UploadRequest) (w : World) :
  exists resp recs w',
    post_upload md5_hex req w = (inr resp, w') /\
    files (current w') = files (current w) ++ recs /\
    nextId (current w) <= nextId (current w') /\
    Forall (recorded_from w w' (parts req)) recs /\
    uploaded_of (inr resp) = recs.
Proof.
  unfold post_upload, try_catch, multer.array.
  destruct (multer.handle_parts "files" 20 (parts req) [] w)
    as [[e | req_files] w1] eqn:Hparts.
  - pose proof (handle_parts_db "files" (parts req) 20 [] w (Forall_nil_2 _)) as Hdb.
    rewrite Hparts in Hdb. simpl in Hdb.
    rewrite (bind_throw _ _ _ _ _ Hparts).
    assert (Hmw : exists resp, errorMiddleware e w1 = (inr resp, w1) /\
                               uploaded_of (inr resp) = []).
    { destruct e as [m | c]; simpl; [eauto|].
      destruct (bool_decide _); eauto. }
    destruct Hmw as (resp & -> & Hup).
    exists resp, [], w1. rewrite app_nil_r, (current_dbFile _ _ Hdb).
    repeat split; auto. lia.
  - pose proof (handle_parts_db "files" (parts req) 20 [] w (Forall_nil_2 _)) as Hdb.
    rewrite Hparts in Hdb. simpl in Hdb.
    destruct (handle_parts_files _ _ _ _ _ _ _ (Forall_nil_2 _) Hparts)
      as (Hclock1 & Hreads1 & new & Hnew & Hstored & _).
    simpl in Hnew. subst new.
    rewrite (bind_run _ _ _ _ _ Hparts).
    destruct (upload_route_run req_files (body_notes req) w1)
      as (resp & recs & errs & w' & -> & Hfiles & Hnext & _ & Hrecs & _ & _
          & Hclock & Hreads & Hup & _).
    exists resp, recs, w'. rewrite <- (current_dbFile _ _ Hdb).
    repeat split; auto.
    eapply Forall_impl; [exact Hrecs|].
    intros r (file & Hin & Horig & Hname & Hpath & Htype).
    rewrite Forall_forall in Hstored.
    destruct (Hstored file)
      as (p & now & Hp & Hnow & Hfilter & Hforig & Hfname & Hfpath).
    { now apply list_elem_of_In. }
    exists p, now. split; [assumption|].
    split; [apply (read_between_weaken w w1); auto; lia|].
    repeat split; try congruence.
Qed.


End UploadRequest.

(** ** Claims on the upload and delete requests *)




(** C7, as stated, fails on its own example: of the name
    [../../etc/passwd.csv] multer hands over the base name [passwd.csv]
    (busboy, [preservePath] off), so the stored name ends in [_passwd.csv],
    not in [_.._.._etc_passwd.csv], and [originalName] is [passwd.csv], not
    the name the client sent. *)
Lemma traversal_upload_original :
  map Part.originalname (parts traversal_upload) = ["../../etc/passwd.csv"] /\
  uploaded_of (post_upload md5_empty traversal_upload sample_world).1 =
    [File.mk 1 "2023-11-14T22-13-20-000Z_passwd.csv"
       "passwd.csv" "spreadsheet" 0
       "d41d8cd98f00b204e9800998ecf8427e" EmptyString
       "uploads/2023-11-14T22-13-20-000Z_passwd.csv"
       1700000000001 "uploaded"] /\
  Forall (fun r => File.originalName r <> "../../etc/passwd.csv" /\
                   File.filename r
                     <> stored_name 1700000000000 "../../etc/passwd.csv")
    (uploaded_of (post_upload md5_empty traversal_upload sample_world).1).
Proof.
  assert (Hrun : uploaded_of (post_upload md5_empty traversal_upload sample_world).1 =
    [File.mk 1 "2023-11-14T22-13-20-000Z_passwd.csv"
       "passwd.csv" "spreadsheet" 0
       "d41d8cd98f00b204e9800998ecf8427e" EmptyString
       "uploads/2023-11-14T22-13-20-000Z_passwd.csv"
       1700000000001 "uploaded"]) by (vm_compute; reflexivity).
  split; [reflexivity|]. split; [exact Hrun|]. rewrite Hrun.
  constructor; [|constructor]. split; [discriminate|].
  intros E. vm_compute in E. discriminate.
Qed.

Section StoredNames.
Variable md5_hex : list Byte.byte -> string.

Lemma post_upload_names (req : UploadRequest) (w : World) :
  exists resp w',
    post_upload md5_hex req w = (inr resp, w') /\
    Forall (fun r => exists p now,
              In p (parts req) /\
              read_between w w' now /\
              File.originalName r = busboy.basename (Part.originalname p) /\
              File.filename r = stored_name now (File.originalName r) /\
              File.path r = path.join UPLOAD_DIR (File.filename r) /\
              File.path r = "uploads/" +:+ File.filename r)
      (uploaded_of (inr resp)).
Proof.
  destruct (post_upload_run md5_hex req w)
    as (resp & recs & w' & Hrun & _ & _ & Hrecs & Hup).
  exists resp, w'. split; [exact Hrun|]. rewrite Hup.
  eapply Forall_impl; [exact Hrecs|].
  intros r (p & now & Hp & Hnow & _ & Horig & Hname & Hpath & _).
  exists p, now. unfold file_name in *. rewrite Horig.
  repeat split; try assumption.
  rewrite Hpath, Hname. apply plain_join, stored_name_plain.
Qed.

End StoredNames.

(** C7 (amended): a name [storage.filename] gives (the instant of the
    clock with [:] and [.] replaced by [-], then [_], then the name it is
    given with each character outside [a-zA-Z0-9._-] replaced by [_])
    holds no path separator and is neither [.] nor [..]. The name it is
    given is the base name of the name the client sent: what follows the
    last slash or backslash, which holds no separator and is the whole
    name when that holds none. Every upload request is answered, and each
    record it returns has the base name of the name of a part of the
    request as [originalName], as [filename] the stored name of that base
    name at an instant the clock gave while the request was served, and
    the path of that name in the upload directory. *)
Theorem stored_name_safe (md5_hex : list Byte.byte -> string) :
  (forall now originalname,
     no_separator (stored_name now originalname) = true /\
     stored_name now originalname <> "." /\
     stored_name now originalname <> "..") /\
  (forall name,
     no_separator (busboy.basename name) = true /\
     (no_separator name = true -> name <> "." -> name <> ".." ->
      busboy.basename name = name)) /\
  (forall req w,
     exists resp w',
       post_upload md5_hex req w = (inr resp, w') /\
       Forall (fun r => exists p now,
                 In p (parts req) /\
                 read_between w w' now /\
                 File.originalName r = busboy.basename (Part.originalname p) /\
                 File.filename r = stored_name now (File.originalName r) /\
                 File.path r = path.join UPLOAD_DIR (File.filename r) /\
                 File.path r = "uploads/" +:+ File.filename r)
         (uploaded_of (inr resp))).
Proof.
  split.
  { intros now originalname.
    split; [apply stored_name_no_separator | apply stored_name_not_dots]. }
  split.
  { intros name. split; [apply basename_no_separator | apply basename_plain]. }
  apply post_upload_names.
Qed.

Lemma deleteFile_subset (id : string) (w : World) (r : File.t) :
  In r (files (current (db.deleteFile id w).2)) -> In r (files (current w)).
Proof.
  destruct (deleteFile_cases id w)
    as [[_ Hrun] | (l1 & f & l2 & Hl & _ & _ & Hrun)]; rewrite Hrun; simpl.
  - auto.
  - rewrite Hl, !in_app_iff. simpl. tauto.
Qed.

Section Serve.
Variable md5_hex : list Byte.byte -> string.

(** One request keeps the records of the store or adds records of an
    allowed type, and returns only records of an allowed type. *)
Lemma serve_step (request : Request) (w : World) :
  exists out w',
    match request with
    | Upload req => post_upload md5_hex req w
    | Delete id => delete_file id w
    end = (out, w') /\
    Forall (fun r => In r (files (current w)) \/ allowed_type (File.type r))
      (files (current w')) /\
    Forall (fun r => allowed_type (File.type r)) (uploaded_of out).
Proof.
  destruct request as [req | id].
  - destruct (post_upload_run md5_hex req w)
      as (resp & recs & w' & Hrun & Hfiles & _ & Hrecs & Hup).
    exists (inr resp), w'. split; [exact Hrun|].
    assert (Hallowed : Forall (fun r => allowed_type (File.type r)) recs).
    { eapply Forall_impl; [exact Hrecs|]. apply recorded_from_allowed. }
    split; [|now rewrite Hup].
    rewrite Hfiles. apply Forall_app. split.
    + apply Forall_forall. intros r Hr. left. now apply list_elem_of_In.
    + eapply Forall_impl; [exact Hallowed|]. auto.
  - destruct (delete_file_run id w) as (resp & w' & Hrun & Hup & [Hdb | Hdb]).
    + exists (inr resp), w'. split; [exact Hrun|].
      split; [|rewrite Hup; constructor].
      rewrite (current_dbFile _ _ Hdb).
      apply Forall_forall. intros r Hr. left.
      apply (deleteFile_subset id). now apply list_elem_of_In.
    + exists (inr resp), w'. split; [exact Hrun|].
      split; [|rewrite Hup; constructor].
      unfold current. rewrite Hdb. constructor.
Qed.

Lemma serve_records (requests : list Request) (w : World) :
  Forall (fun r => In r (files (current w)) \/ allowed_type (File.type r))
    (files (current (serve md5_hex requests w).2)) /\
  Forall (fun out => Forall (fun r => allowed_type (File.type r)) (uploaded_of out))
    (serve md5_hex requests w).1.
Proof.
  revert w. induction requests as [|request rest IH]; intros w; simpl.
  - split; [|constructor].
    apply Forall_forall. intros r Hr. left. now apply list_elem_of_In.
  - destruct (serve_step request w) as (out & w' & -> & Hstore & Hout).
    specialize (IH w'). destruct (serve md5_hex rest w') as [outs w''].
    simpl in *. destruct IH as [IHstore IHouts].
    split; [|now constructor].
    rewrite Forall_forall in Hstore.
    eapply Forall_impl; [exact IHstore|].
    intros r [Hr | Hr]; [|now right].
    apply Hstore. now apply list_elem_of_In.
Qed.

End Serve.

(** C10: along every sequence of upload and delete requests, from every
    state of the store, each record an upload returns has the type
    [spreadsheet], [ofx] or [pdf], never [unknown], and each record of the
    store is a record the store held at the start, unchanged, or has one of
    these three types. *)
Theorem uploaded_types_allowed (md5_hex : list Byte.byte -> string)
    (requests : list Request) (w : World) :
  Forall (fun out =>
            Forall (fun r => allowed_type (File.type r) /\ File.type r <> "unknown")
              (uploaded_of out))
    (serve md5_hex requests w).1 /\
  Forall (fun r => In r (files (current w)) \/ allowed_type (File.type r))
    (files (current (serve md5_hex requests w).2)).
Proof.
  destruct (serve_records md5_hex requests w) as [Hstore Houts].
  split; [|exact Hstore].
  eapply Forall_impl; [exact Houts|]. intros out Hout.
  eapply Forall_impl; [exact Hout|]. intros r Hr.
  split; [exact Hr|].
  destruct Hr as [-> | [-> | ->]]; discriminate.
Qed.

(** * Further properties *)

(** ** [parseInt] reads back what [String] prints *)

Lemma string_of_uint_digits (d : Decimal.uint) :
  JS.all_chars is_digit (NilEmpty.string_of_uint d) = true.
Proof. induction d; simpl; auto. Qed.

Ltac eval_digit :=
  match goal with |- context [JS.digit_value 10 ?c] =>
    let v := eval vm_compute in (JS.digit_value 10 c) in
    change (JS.digit_value 10 c) with v; cbv iota beta
  end.

Lemma digits_prefix_uint (d acc : Decimal.uint) :
  JS.digits_prefix 10 (NilEmpty.string_of_uint d)
    (Some (Z.of_N (Unsigned.of_lu acc)))
  = Some (Z.of_N (Unsigned.of_lu (Decimal.revapp d acc))).
Proof.
  revert acc. induction d; intros acc; [reflexivity|..].
  all: cbn [NilEmpty.string_of_uint JS.digits_prefix Decimal.revapp].
  all: rewrite <- IHd; eval_digit; do 2 f_equal; cbn [Unsigned.of_lu]; lia.
Qed.

Lemma digits_prefix_to_uint (p : positive) :
  JS.digits_prefix 10 (NilEmpty.string_of_uint (Pos.to_uint p)) None
  = Some (Z.pos p).
Proof.
  pose proof (Unsigned.of_to p) as Hp. rewrite Unsigned.of_uint_alt in Hp.
  unfold Decimal.rev in Hp.
  destruct (Pos.to_uint p) eqn:E; [now apply Unsigned.to_uint_nonnil in E|..].
  all: cbn [NilEmpty.string_of_uint JS.digits_prefix Decimal.revapp] in *.
  all: eval_digit.
  all: match type of Hp with Unsigned.of_lu (Decimal.revapp _ ?acc) = _ =>
         change (Some _) with (Some (Z.of_N (Unsigned.of_lu acc))) at 1 end.
  all: rewrite digits_prefix_uint, Hp; reflexivity.
Qed.

Lemma digit_string_parse (s : string) :
  s <> EmptyString -> JS.all_chars is_digit s = true ->
  JS.strip_radix s = (10, s) /\ JS.strip_sign s = (1, s) /\ JS.trimStart s = s.
Proof.
  destruct s as [|c s]; [congruence|]. intros _. simpl.
  intros [Hc Hs]%andb_prop.
  assert (Hsign : JS.strip_sign (String c s) = (1, String c s) /\
                  JS.trimStart (String c s) = String c s).
  { destruct c as [[] [] [] [] [] [] [] []]; try discriminate Hc; split; reflexivity. }
  split; [|exact Hsign].
  destruct s as [|c2 s].
  - destruct c as [[] [] [] [] [] [] [] []]; reflexivity.
  - simpl in Hs. apply andb_prop in Hs as [Hc2 _].
    destruct c as [[] [] [] [] [] [] [] []]; try reflexivity.
    destruct c2 as [[] [] [] [] [] [] [] []]; try reflexivity; discriminate Hc2.
Qed.

Lemma parseInt_toString (n : Z) :
  Z.abs n <= 2 ^ 53 -> JS.parseInt (JS.Number_toString n) = Some n.
Proof.
  intros Hn.
  unfold JS.Number_toString. destruct n as [|p|p]; [reflexivity|..]; simpl Z.to_int.
  - unfold NilZero.string_of_int, NilZero.string_of_uint.
    pose proof (string_of_uint_digits (Pos.to_uint p)) as Hd.
    pose proof (digits_prefix_to_uint p) as Hp.
    destruct (Pos.to_uint p) eqn:E; [now apply Unsigned.to_uint_nonnil in E|..].
    all: rewrite <- E in *.
    all: destruct (digit_string_parse (NilEmpty.string_of_uint (Pos.to_uint p)))
           as (Hr & Hsg & Ht); [rewrite E; discriminate | exact Hd |].
    all: unfold JS.parseInt; rewrite Ht, Hsg, Hr, Hp.
    all: rewrite round_double_exact by lia; f_equal; lia.
  - unfold NilZero.string_of_int, NilZero.string_of_uint.
    pose proof (string_of_uint_digits (Pos.to_uint p)) as Hd.
    pose proof (digits_prefix_to_uint p) as Hp.
    destruct (Pos.to_uint p) eqn:E; [now apply Unsigned.to_uint_nonnil in E|..].
    all: rewrite <- E in *.
    all: destruct (digit_string_parse (NilEmpty.string_of_uint (Pos.to_uint p)))
           as (Hr & Hsg & Ht); [rewrite E; discriminate | exact Hd |].
    all: unfold JS.parseInt; cbn [JS.trimStart JS.is_space]. 
    all: change (JS.is_space "-") with false; cbv iota.
    all: cbn [JS.strip_sign]; rewrite Hr, Hp.
    all: rewrite round_double_exact by lia; f_equal; lia.
Qed.

Lemma id_is_printed (n : Z) (g : File.t) :
  safe_integer n -> db.id_is (JS.Number_toString n) g = (File.id g =? n).
Proof.
  intros Hn. unfold db.id_is.
  now rewrite parseInt_toString by (unfold safe_integer in Hn; lia).
Qed.

(** ** Looking up, adding and deleting records *)

Lemma find_app_none {A} (p : A -> bool) (l : list A) (x : A) :
  p x = false -> List.find p (l ++ [x]) = List.find p l.
Proof.
  intros Hx. induction l as [|y l IH]; simpl.
  - now rewrite Hx.
  - now destruct (p y).
Qed.

Lemma deleteFile_found (id : string) (w : World) :
  (db.deleteFile id w).1 = (db.getFileById id w).1.
Proof.
  rewrite getFileById_run.
  destruct (deleteFile_cases id w)
    as [[Hnone Hrun] | (l1 & f & l2 & Hl & H1 & Hf & Hrun)]; rewrite Hrun; simpl.
  - now rewrite (find_none _ _ Hnone).
  - now rewrite Hl, (find_at _ _ _ _ H1 Hf).
Qed.

(** X1: [db.deleteFile] returns the record [db.getFileById] finds for the
    same id in the same store, or nothing when it finds none. *)
Theorem deleteFile_returns_found (id : string) (w : World) :
  (db.deleteFile id w).1 = (db.getFileById id w).1.
Proof. apply deleteFile_found. Qed.

Lemma delete_file_not_found (id : string) (w : World) :
  (db.getFileById id w).1 = inr None ->
  delete_file id w = (inr (mkResponse 404 (Failure false "File not found")), w).
Proof.
  rewrite <- deleteFile_found. intros Hnone.
  destruct (deleteFile_cases id w)
    as [[_ Hrun] | (l1 & f & l2 & _ & _ & _ & Hrun)];
    rewrite Hrun in Hnone; [|discriminate].
  unfold delete_file, try_catch. now rewrite (bind_run _ _ _ _ _ Hrun).
Qed.

(** X2: for an id no record of the store has, also one that is not a
    number, the delete route answers 404 [File not found] and changes
    neither the store nor the disk. *)
Theorem delete_unknown_id (id : string) (w : World) :
  (db.getFileById id w).1 = inr None ->
  delete_file id w = (inr (mkResponse 404 (Failure false "File not found")), w).
Proof. apply delete_file_not_found. Qed.

Lemma delete_unknown_id_witness :
  (db.getFileById "abc" twins_world).1 = inr None /\
  delete_file "abc" twins_world =
    (inr (mkResponse 404 (Failure false "File not found")), twins_world).
Proof. split; [reflexivity|]. apply delete_unknown_id. reflexivity. Defined.

Lemma delete_file_removes_blob (id : string) (w : World) (file : File.t)
    (bytes : list Byte.byte) :
  (db.getFileById id w).1 = inr (Some file) ->
  disk w !! path.join UPLOAD_DIR (File.filename file) = Some bytes ->
  exists l1 l2,
    files (current w) = l1 ++ file :: l2 /\
    Forall (fun g => db.id_is id g = false) l1 /\
    delete_file id w =
      (inr (mkResponse 200 (DeleteResult true "File deleted successfully")),
       mkWorld (Document (mkData (l1 ++ l2) (nextId (current w))))
         (delete (path.join UPLOAD_DIR (File.filename file)) (disk w))
         (clock w) (reads w)).
Proof.
  rewrite getFileById_run. simpl. intros Hfind Hdisk.
  destruct (deleteFile_cases id w)
    as [[Hnone _] | (l1 & f & l2 & Hl & H1 & Hf & Hrun)].
  - rewrite (find_none _ _ Hnone) in Hfind. discriminate.
  - rewrite Hl, (find_at _ _ _ _ H1 Hf) in Hfind.
    assert (f = file) as -> by congruence.
    exists l1, l2. repeat split; try assumption.
    unfold delete_file, try_catch.
    rewrite (bind_run _ _ _ _ _ Hrun).
    set (w1 := set_db (mkData (l1 ++ l2) (nextId (current w))) w).
    assert (Hdisk1 : disk w1 !! path.join UPLOAD_DIR (File.filename file)
                     = Some bytes) by exact Hdisk.
    rewrite (bind_run _ _ _ _ _ (existsSync_present _ _ w1 Hdisk1)).
    rewrite (bind_run _ _ _ _ _ (unlinkSync_run _ _ _ Hdisk1)).
    reflexivity.
Qed.

(** X3: when the record the id designates is in the store and its file is
    in the upload directory, the delete route takes the record out of the
    store, removes that file and no other from the disk, and answers 200. *)
Theorem delete_present_blob (id : string) (w : World) (file : File.t)
    (bytes : list Byte.byte) :
  (db.getFileById id w).1 = inr (Some file) ->
  disk w !! path.join UPLOAD_DIR (File.filename file) = Some bytes ->
  exists l1 l2,
    files (current w) = l1 ++ file :: l2 /\
    Forall (fun g => db.id_is id g = false) l1 /\
    delete_file id w =
      (inr (mkResponse 200 (DeleteResult true "File deleted successfully")),
       mkWorld (Document (mkData (l1 ++ l2) (nextId (current w))))
         (delete (path.join UPLOAD_DIR (File.filename file)) (disk w))
         (clock w) (reads w)).
Proof. apply delete_file_removes_blob. Qed.

Lemma delete_present_blob_witness :
  (db.getFileById "1" stocked_world).1 = inr (Some (twin "a.pdf")) /\
  disk stocked_world !! path.join UPLOAD_DIR (File.filename (twin "a.pdf"))
    = Some [] /\
  exists l1 l2,
    files (current stocked_world) = l1 ++ twin "a.pdf" :: l2 /\
    Forall (fun g => db.id_is "1" g = false) l1 /\
    delete_file "1" stocked_world =
      (inr (mkResponse 200 (DeleteResult true "File deleted successfully")),
       mkWorld (Document (mkData (l1 ++ l2) (nextId (current stocked_world))))
         (delete (path.join UPLOAD_DIR (File.filename (twin "a.pdf")))
            (disk stocked_world))
         (clock stocked_world) (reads stocked_world)).
Proof.
  split; [reflexivity|]. split; [reflexivity|].
  apply (delete_present_blob "1" stocked_world (twin "a.pdf") []); reflexivity.
Defined.

(** X4: on a store whose records have pairwise different ids, a second
    delete request for the same id answers 404 [File not found]. *)
Theorem delete_twice_not_found (id : string) (w : World) :
  NoDup (ids (current w)) ->
  (delete_file id (delete_file id w).2).1
    = inr (mkResponse 404 (Failure false "File not found")).
Proof.
  intros Hnd.
  destruct (delete_file_run id w) as (resp & w1 & Hrun & _ & Hdb).
  rewrite Hrun. simpl.
  rewrite delete_file_not_found; [reflexivity|].
  pose proof (find_after_delete id w Hnd) as Hgone.
  rewrite getFileById_run in *. simpl in *.
  destruct Hdb as [Hdb | Hdb].
  - now rewrite (current_dbFile _ _ Hdb).
  - unfold current. now rewrite Hdb.
Qed.

Lemma delete_twice_not_found_witness :
  NoDup (ids (current stocked_world)) /\
  (delete_file "1" (delete_file "1" stocked_world).2).1
    = inr (mkResponse 404 (Failure false "File not found")).
Proof.
  assert (H : NoDup (ids (current stocked_world))).
  { apply (bool_decide_unpack _). vm_compute. exact I. }
  split; [exact H|]. exact (delete_twice_not_found "1" stocked_world H).
Defined.

Lemma fresh_not_printed (n : Z) (data : Data) :
  safe_integer n -> Forall (fun i => i < n) (ids data) ->
  Forall (fun g => db.id_is (JS.Number_toString n) g = false) (files data).
Proof.
  intros Hn Hlt. unfold ids in Hlt. rewrite Forall_map in Hlt.
  eapply Forall_impl; [exact Hlt|]. intros g Hg. simpl in Hg.
  rewrite (id_is_printed _ _ Hn). apply Z.eqb_neq. lia.
Qed.

(** X5: on a store with fresh ids whose [nextId] is a safe integer, the
    record [db.addFile] returns is the one [db.getFileById] finds
    afterwards for the printed id of that record. *)
Theorem addFile_then_find (fileInfo : FileInfo.t) (w : World) :
  fresh_ids (current w) ->
  safe_integer (nextId (current w)) ->
  (db.getFileById (JS.Number_toString (nextId (current w)))
     (db.addFile fileInfo w).2).1
  = inr (Some (new_file fileInfo w)) /\
  (db.addFile fileInfo w).1 = inr (new_file fileInfo w).
Proof.
  intros [_ Hlt] Hsafe. rewrite addFile_run, getFileById_run. simpl.
  split; [|reflexivity].
  f_equal. apply find_at.
  - now apply fresh_not_printed.
  - rewrite (id_is_printed _ _ Hsafe). apply Z.eqb_refl.
Qed.

Lemma addFile_then_find_witness :
  fresh_ids (current sample_world) /\
  safe_integer (nextId (current sample_world)) /\
  (db.getFileById (JS.Number_toString (nextId (current sample_world)))
     (db.addFile sample_info sample_world).2).1
  = inr (Some (new_file sample_info sample_world)) /\
  (db.addFile sample_info sample_world).1
  = inr (new_file sample_info sample_world).
Proof.
  assert (H : fresh_ids (current sample_world)) by (split; constructor).
  assert (Hs : safe_integer (nextId (current sample_world)))
    by (unfold safe_integer; simpl; lia).
  split; [exact H|]. split; [exact Hs|].
  exact (addFile_then_find sample_info sample_world H Hs).
Defined.

(** X6: [db.addFile] does not change what [db.getFileById] finds for an
    id other than the one it assigns. *)
Theorem addFile_keeps_lookups (fileInfo : FileInfo.t) (id : string) (w : World) :
  JS.parseInt id <> Some (nextId (current w)) ->
  (db.getFileById id (db.addFile fileInfo w).2).1 = (db.getFileById id w).1.
Proof.
  intros Hid. rewrite addFile_run, !getFileById_run. simpl. f_equal.
  apply find_app_none. unfold db.id_is.
  destruct (JS.parseInt id) as [n|]; [|reflexivity].
  apply Z.eqb_neq. simpl. congruence.
Qed.

Lemma addFile_keeps_lookups_witness :
  JS.parseInt "1" <> Some (nextId (current twins_world)) /\
  (db.getFileById "1" (db.addFile sample_info twins_world).2).1
  = (db.getFileById "1" twins_world).1.
Proof.
  assert (H : JS.parseInt "1" <> Some (nextId (current twins_world)))
    by discriminate.
  split; [exact H|]. exact (addFile_keeps_lookups sample_info "1" twins_world H).
Defined.

(** ** Statistics and listing *)

Lemma or0_id (x : Z) : db.or0 x = x.
Proof. unfold db.or0. destruct (Z.eqb_spec x 0); congruence. Qed.

Lemma sum_sizes_nonneg (l : list File.t) :
  Forall (fun f => 0 <= File.size f) l -> 0 <= sum_sizes l.
Proof. induction 1; simpl; lia. Qed.

Lemma fold_sizes (l : list File.t) (a : Z) :
  Forall (fun f => 0 <= File.size f) l ->
  0 <= a -> a + sum_sizes l <= 2 ^ 53 ->
  fold_left (fun sum f => JS.add sum (db.or0 (File.size f))) l a = a + sum_sizes l.
Proof.
  intros Hl. revert a. induction Hl as [|f l Hf Hl IH]; intros a Ha Hsum; simpl in *;
    [lia|].
  pose proof (sum_sizes_nonneg l Hl) as Hpos.
  rewrite or0_id, add_exact by lia. rewrite IH by lia. lia.
Qed.

Lemma sum_sizes_perm (l l' : list File.t) :
  Permutation l l' -> sum_sizes l = sum_sizes l'.
Proof. induction 1; simpl; lia. Qed.

Lemma count_of_type_perm (t : string) (l l' : list File.t) :
  Permutation l l' -> count_of_type t l = count_of_type t l'.
Proof.
  intros H. unfold count_of_type. f_equal.
  induction H; simpl; try lia.
  - destruct (has_type t x); simpl; lia.
  - destruct (has_type t x), (has_type t y); simpl; lia.
Qed.

Lemma count_of_type_le (t : string) (l : list File.t) :
  0 <= count_of_type t l <= Z.of_nat (length l).
Proof.
  unfold count_of_type. split; [lia|]. apply inj_le.
  induction l as [|f l IH]; simpl; [lia|]. destruct (has_type t f); simpl; lia.
Qed.

Lemma count_of_type_cons (t : string) (f : File.t) (l : list File.t) :
  count_of_type t (f :: l) =
    (if has_type t f then 1 else 0) + count_of_type t l.
Proof.
  unfold count_of_type. simpl. destruct (has_type t f); simpl length; lia.
Qed.

Lemma fold_count_type (t : string) (l : list File.t) (m : gmap string Z) :
  0 <= default 0 (m !! t) ->
  default 0 (m !! t) + count_of_type t l <= 2 ^ 53 ->
  fold_left db.count_type l m !! t =
    if count_of_type t l =? 0 then m !! t
    else Some (default 0 (m !! t) + count_of_type t l).
Proof.
  revert m. induction l as [|f l IH]; intros m Hm Hsum; simpl fold_left;
    [reflexivity|].
  rewrite count_of_type_cons in *.
  pose proof (count_of_type_le t l) as [Hpos _].
  unfold db.count_type at 2. rewrite or0_id.
  destruct (has_type t f) eqn:Ht; unfold has_type in Ht.
  - apply bool_decide_eq_true in Ht. subst t.
    rewrite add_exact by lia.
    rewrite IH; rewrite lookup_insert_eq; simpl; try lia.
    destruct (Z.eqb_spec (count_of_type (File.type f) l) 0);
      destruct (Z.eqb_spec (1 + count_of_type (File.type f) l) 0);
      try lia; f_equal; lia.
  - apply bool_decide_eq_false in Ht.
    rewrite IH; rewrite lookup_insert_ne by assumption; try assumption.
    reflexivity.
Qed.

Lemma exact_stats_perm (l l' : list File.t) (n n' : Z) :
  Permutation l l' -> exact_stats (mkData l n) -> exact_stats (mkData l' n').
Proof.
  intros Hperm (Hsizes & Hsum & Hlen). unfold exact_stats in *. simpl in *.
  rewrite <- (sum_sizes_perm _ _ Hperm), <- (Permutation_length Hperm).
  repeat split; try assumption.
  apply Forall_forall. intros f Hf. rewrite Forall_forall in Hsizes.
  apply Hsizes. now rewrite Hperm.
Qed.

Lemma getStats_totals (w : World) :
  exact_stats (current w) ->
  exists stats,
    db.getStats w = (inr stats, w) /\
    totalFiles stats = Z.of_nat (length (files (current w))) /\
    totalSize stats = sum_sizes (files (current w)) /\
    forall t, byType stats !! t =
              if count_of_type t (files (current w)) =? 0 then None
              else Some (count_of_type t (files (current w))).
Proof.
  intros Hexact. unfold db.getStats.
  rewrite (bind_run _ _ _ _ _ (getFiles_run w)).
  pose proof (sort_perm db.byUploadDate (files (current w))) as Hperm.
  assert (Hsorted : exact_stats (mkData (JS.sort db.byUploadDate (files (current w))) 0)).
  { apply (exact_stats_perm (files (current w)) _ (nextId (current w)));
      [now symmetry | now destruct (current w)]. }
  destruct Hsorted as (Hsizes & Hsum & Hlen). simpl in *.
  eexists. split; [reflexivity|]. simpl. repeat split.
  - now rewrite (Permutation_length Hperm).
  - rewrite fold_sizes by (assumption || lia).
    rewrite (sum_sizes_perm _ _ Hperm). lia.
  - intros t.
    pose proof (count_of_type_le t (JS.sort db.byUploadDate (files (current w))))
      as [_ Hle].
    rewrite fold_count_type; rewrite lookup_empty; simpl; try lia.
    now rewrite (count_of_type_perm t _ _ Hperm).
Qed.

(** X7: on a store whose records have the types the upload route records
    and sizes that are byte counts, with totals that are safe integers,
    [db.getStats] returns the number of records, the sum of their sizes,
    and for each type the number of records of that type, with no entry
    for a type without records; it changes nothing. *)
Theorem getStats_counts (w : World) :
  Forall (fun f => allowed_type (File.type f)) (files (current w)) ->
  exact_stats (current w) ->
  exists stats,
    db.getStats w = (inr stats, w) /\
    totalFiles stats = Z.of_nat (length (files (current w))) /\
    totalSize stats = sum_sizes (files (current w)) /\
    forall t, byType stats !! t =
              if count_of_type t (files (current w)) =? 0 then None
              else Some (count_of_type t (files (current w))).
Proof. intros _. apply getStats_totals. Qed.

Lemma getStats_counts_witness :
  Forall (fun f => allowed_type (File.type f)) (files (current stocked_world)) /\
  exact_stats (current stocked_world) /\
  exists stats,
    db.getStats stocked_world = (inr stats, stocked_world) /\
    totalFiles stats = Z.of_nat (length (files (current stocked_world))) /\
    totalSize stats = sum_sizes (files (current stocked_world)) /\
    forall t, byType stats !! t =
              if count_of_type t (files (current stocked_world)) =? 0 then None
              else Some (count_of_type t (files (current stocked_world))).
Proof.
  assert (H : Forall (fun f => allowed_type (File.type f))
                (files (current stocked_world))).
  { repeat constructor; right; right; reflexivity. }
  assert (Hx : exact_stats (current stocked_world)).
  { repeat split; simpl; try lia. repeat constructor; simpl; lia. }
  split; [exact H|]. split; [exact Hx|].
  exact (getStats_counts stocked_world H Hx).
Defined.

Lemma sort_app_newest (l : list File.t) (f : File.t) :
  Forall (fun g => File.uploadDate g < File.uploadDate f) l ->
  JS.sort db.byUploadDate (l ++ [f]) = f :: JS.sort db.byUploadDate l.
Proof.
  induction 1 as [|g l Hg _ IH]; simpl; [reflexivity|].
  rewrite IH. simpl. unfold db.byUploadDate at 1.
  replace (File.uploadDate f - File.uploadDate g >? 0) with true
    by (symmetry; apply Z.gtb_lt; lia).
  reflexivity.
Qed.

(** X8: when the clock reads an instant later than every [uploadDate] of
    the store, the record [db.addFile] adds is the first [db.getFiles]
    lists afterwards, followed by the former listing. *)
Theorem added_file_listed_first (fileInfo : FileInfo.t) (w : World) :
  Forall (fun g => File.uploadDate g < clock w (reads w)) (files (current w)) ->
  exists former,
    (db.getFiles w).1 = inr former /\
    (db.getFiles (db.addFile fileInfo w).2).1
      = inr (new_file fileInfo w :: former).
Proof.
  intros Hlater. exists (JS.sort db.byUploadDate (files (current w))).
  rewrite addFile_run, !getFiles_run. simpl. split; [reflexivity|].
  f_equal. now apply sort_app_newest.
Qed.

Lemma added_file_listed_first_witness :
  Forall (fun g => File.uploadDate g < clock later_world (reads later_world))
    (files (current later_world)) /\
  exists former,
    (db.getFiles later_world).1 = inr former /\
    (db.getFiles (db.addFile sample_info later_world).2).1
      = inr (new_file sample_info later_world :: former).
Proof.
  assert (H : Forall (fun g => File.uploadDate g
                               < clock later_world (reads later_world))
                (files (current later_world))).
  { repeat constructor. }
  split; [exact H|]. exact (added_file_listed_first sample_info later_world H).
Defined.

(** ** The routes that read *)

Section ReadRoutes.
Variable mime_lookup : string -> option string.

Lemma download_not_found (id : string) (w : World) :
  List.find (db.id_is id) (files (current w)) = None ->
  download mime_lookup id w = (inr (NotSent 404 false "File not found"), w).
Proof.
  intros Hfind. unfold download, try_catch.
  rewrite (bind_run _ _ _ _ _ (getFileById_run id w)), Hfind. reflexivity.
Qed.


Lemma download_absent (id : string) (w : World) (file : File.t) :
  List.find (db.id_is id) (files (current w)) = Some file ->
  plain_name (File.filename file) ->
  disk w !! path.join UPLOAD_DIR (File.filename file) = None ->
  download mime_lookup id w
    = (inr (NotSent 404 false "File not found on disk"), w).
Proof.
  intros Hfind Hplain Hdisk. unfold download, try_catch.
  rewrite (bind_run _ _ _ _ _ (getFileById_run id w)), Hfind.
  rewrite (bind_run _ _ _ _ _ (existsSync_absent _ w Hplain Hdisk)).
  reflexivity.
Qed.

End ReadRoutes.

(** X9: when the database file cannot be parsed, the three routes that
    read answer as on an empty store and leave the file as it is: the
    listing is empty and the statistics are zero, both with status 200,
    and a download answers 404 [File not found]. *)
Theorem read_routes_unparsable (mime_lookup : string -> option string)
    (id : string) (w : World) (e : Exn) :
  (fs.readParse_db w).1 = inl e ->
  get_files w = (inr (mkReadResponse 200 (FilesResult true [])), w) /\
  get_stats w
    = (inr (mkReadResponse 200 (StatsResult true (mkStats 0 0 ∅))), w) /\
  download mime_lookup id w = (inr (NotSent 404 false "File not found"), w).
Proof.
  intros He.
  assert (Hc : current w = mkData [] 1).
  { unfold current. unfold_M. destruct (dbFile w); [reflexivity.. | discriminate]. }
  assert (Hstats : db.getStats w = (inr (mkStats 0 0 ∅), w)).
  { unfold db.getStats. rewrite (bind_run _ _ _ _ _ (getFiles_run w)), Hc.
    reflexivity. }
  repeat split.
  - unfold get_files, try_catch.
    rewrite (bind_run _ _ _ _ _ (getFiles_run w)), Hc. reflexivity.
  - unfold get_stats, try_catch. now rewrite (bind_run _ _ _ _ _ Hstats).
  - apply download_not_found. now rewrite Hc.
Qed.

Lemma read_routes_unparsable_witness :
  (fs.readParse_db garbled_world).1 = inl (Error "Unexpected token in JSON") /\
  get_files garbled_world
    = (inr (mkReadResponse 200 (FilesResult true [])), garbled_world) /\
  get_stats garbled_world
    = (inr (mkReadResponse 200 (StatsResult true (mkStats 0 0 ∅))),
       garbled_world) /\
  download (fun _ => None) "1" garbled_world
    = (inr (NotSent 404 false "File not found"), garbled_world).
Proof.
  split; [reflexivity|].
  apply (read_routes_unparsable (fun _ => None) "1" garbled_world
           (Error "Unexpected token in JSON")).
  reflexivity.
Defined.

(** ** What the upload route records *)

Section UploadRecords.
Variable md5_hex : list Byte.byte -> string.

Lemma read_error_uploads (file : MulterFile.t) :
  in_uploads file ->
  fs.read_error (MulterFile.path file) =
    Error ("ENOENT: no such file or directory, open '"
             +:+ MulterFile.path file +:+ "'").
Proof.
  intros (name & Hplain & ->). unfold fs.read_error.
  now destruct (upload_entry name Hplain) as [-> _].
Qed.


Lemma stored_from_in_uploads (w w' : World) (parts : list Part.t)
    (file : MulterFile.t) :
  stored_from w w' parts file -> in_uploads file.
Proof.
  intros (p & now & _ & _ & _ & _ & Hn & Hp). exists (MulterFile.filename file).
  split; [rewrite Hn; apply stored_name_plain | exact Hp].
Qed.

Lemma forEach_file_full (notes : string) (req_files : list MulterFile.t)
    (acc : list File.t * list UploadError) (w : World) :
  Forall in_uploads req_files ->
  exact_ids (length req_files) (current w) ->
  exists recs w',
    forEach_file md5_hex notes req_files acc w =
      (inr (acc.1 ++ recs,
            acc.2 ++ map unreadable
                       (List.filter (fun f => negb (on_disk w f)) req_files)),
       w') /\
    Forall2 (recorded_as md5_hex notes w) (List.filter (on_disk w) req_files) recs /\
    map File.id recs = count_from (nextId (current w)) (length recs) /\
    files (current w') = files (current w) ++ recs /\
    nextId (current w') = nextId (current w) + Z.of_nat (length recs) /\
    disk w' = disk w /\
    (recs = [] -> w' = w).
Proof.
  intros Hin. revert acc w. induction Hin as [|file rest Hfile Hin IH]; intros acc w Hx.
  - exists [], w. simpl. rewrite !app_nil_r. destruct acc.
    repeat split; auto; try constructor. lia.
  - cbn [forEach_file List.filter].
    destruct Hx as [Hlo Hhi]. simpl in Hlo, Hhi.
    destruct (upload_file_run md5_hex notes file acc w)
      as [(bytes & r & Hdisk & Hr & Hrun) | (e & Hdisk & He & Hrun)];
      rewrite (bind_run _ _ _ _ _ Hrun).
    + rewrite (incr_exact (nextId (current w))) in * by lia.
      set (w1 := set_db _ (tick w)) in *.
      destruct (IH (acc.1 ++ [r], acc.2) w1)
        as (recs & w' & Hrest & Hrecs & Hids & Hfiles & Hnext & Hd & _);
        [split; simpl; lia|].
      change (on_disk w1) with (on_disk w) in *.
      change (recorded_as md5_hex notes w1) with (recorded_as md5_hex notes w) in *.
      assert (Hon : on_disk w file = true)
        by (unfold on_disk; rewrite Hdisk; apply bool_decide_eq_true_2; eauto).
      exists (r :: recs), w'. rewrite Hrest. simpl fst. simpl snd.
      rewrite !Hon. cbn [negb].
      rewrite <- app_assoc. simpl in *.
      repeat split; auto.
      * constructor; [|assumption]. subst r.
        repeat split. exists bytes. auto.
      * rewrite Hids. subst r. reflexivity.
      * rewrite Hfiles, <- app_assoc. reflexivity.
      * lia.
      * discriminate.
    + destruct (IH (acc.1, acc.2 ++ [e]) w)
        as (recs & w' & Hrest & Hrecs & Hids & Hfiles & Hnext & Hd & Hsame);
        [split; simpl; lia|].
      assert (Hon : on_disk w file = false).
      { unfold on_disk. rewrite Hdisk. apply bool_decide_eq_false_2.
        intros [x Hx]. discriminate. }
      exists recs, w'. rewrite Hrest. simpl fst. simpl snd.
      rewrite !Hon. cbn [negb map]. rewrite <- app_assoc. simpl.
      replace e with (unreadable file); [repeat split; auto|].
      unfold upload_file, try_catch in Hrun.
      rewrite (bind_throw _ _ _ _ _ (getFileHash_none md5_hex _ _ Hdisk)) in Hrun.
      rewrite (read_error_uploads _ Hfile) in Hrun.
      unfold mret, M_ret in Hrun. injection Hrun as Hrun.
      apply app_inv_head in Hrun. now injection Hrun.
Qed.

End UploadRecords.





Section UploadProperties.
Variable md5_hex : list Byte.byte -> string.

Lemma upload_route_full (req_files : list MulterFile.t)
    (req_body_notes : option string) (w : World) :
  req_files <> [] ->
  Forall in_uploads req_files ->
  exact_ids (length req_files) (current w) ->
  exists recs w',
    upload_route md5_hex req_files req_body_notes w =
      (inr (mkResponse 200
              (UploadResult (Z.of_nat (length recs) >? 0) recs
                 (map unreadable
                    (List.filter (fun f => negb (on_disk w f)) req_files))
                 ("Successfully uploaded "
                    +:+ JS.Number_toString (Z.of_nat (length recs))
                    +:+ " file(s)"))), w') /\
    Forall2 (recorded_as md5_hex (default EmptyString req_body_notes) w)
      (List.filter (on_disk w) req_files) recs /\
    map File.id recs = count_from (nextId (current w)) (length recs) /\
    files (current w') = files (current w) ++ recs /\
    nextId (current w') = nextId (current w) + Z.of_nat (length recs) /\
    disk w' = disk w.
Proof.
  intros Hne Hin Hx. unfold upload_route, try_catch.
  destruct req_files as [|file rest]; [congruence|].
  replace (Z.of_nat (length (file :: rest)) =? 0) with false
    by (symmetry; apply Z.eqb_neq; simpl; lia).
  destruct (forEach_file_full md5_hex (default EmptyString req_body_notes)
              (file :: rest) ([], []) w Hin Hx)
    as (recs & w' & Hrun & Hrecs & Hids & Hfiles & Hnext & Hd & _).
  rewrite (bind_run _ _ _ _ _ Hrun). exists recs, w'.
  split; [reflexivity|]. auto.
Qed.

(** X10: given at least one file, each with the path of an entry of the
    upload directory, on a store whose next ids are exact, the upload
    route answers with status 200: a record for each file that is on disk,
    in order, with consecutive ids from [nextId], the notes of the request
    and the digest of the content on disk, and an [errors] entry with the
    original name and the message of [ENOENT] for each file that is not;
    [success] tells whether a record was added, and the disk is not
    changed. *)
Theorem upload_route_collects (req_files : list MulterFile.t)
    (req_body_notes : option string) (w : World) :
  req_files <> [] ->
  Forall in_uploads req_files ->
  exact_ids (length req_files) (current w) ->
  exists recs w',
    upload_route md5_hex req_files req_body_notes w =
      (inr (mkResponse 200
              (UploadResult (Z.of_nat (length recs) >? 0) recs
                 (map unreadable
                    (List.filter (fun f => negb (on_disk w f)) req_files))
                 ("Successfully uploaded "
                    +:+ JS.Number_toString (Z.of_nat (length recs))
                    +:+ " file(s)"))), w') /\
    Forall2 (recorded_as md5_hex (default EmptyString req_body_notes) w)
      (List.filter (on_disk w) req_files) recs /\
    map File.id recs = count_from (nextId (current w)) (length recs) /\
    files (current w') = files (current w) ++ recs /\
    nextId (current w') = nextId (current w) + Z.of_nat (length recs) /\
    disk w' = disk w.
Proof. apply upload_route_full. Qed.




End UploadProperties.

Lemma upload_route_collects_witness :
  [MulterFile.mk "a.pdf" "a.pdf" "uploads/a.pdf" 0;
   MulterFile.mk "c.pdf" "c.pdf" "uploads/c.pdf" 0] <> [] /\
  Forall in_uploads
    [MulterFile.mk "a.pdf" "a.pdf" "uploads/a.pdf" 0;
     MulterFile.mk "c.pdf" "c.pdf" "uploads/c.pdf" 0] /\
  exact_ids
    (length [MulterFile.mk "a.pdf" "a.pdf" "uploads/a.pdf" 0;
             MulterFile.mk "c.pdf" "c.pdf" "uploads/c.pdf" 0])
    (current stocked_world) /\
  exists recs w',
    upload_route md5_empty
      [MulterFile.mk "a.pdf" "a.pdf" "uploads/a.pdf" 0;
       MulterFile.mk "c.pdf" "c.pdf" "uploads/c.pdf" 0] None stocked_world =
      (inr (mkResponse 200
              (UploadResult (Z.of_nat (length recs) >? 0) recs
                 (map unreadable
                    (List.filter (fun f => negb (on_disk stocked_world f))
                       [MulterFile.mk "a.pdf" "a.pdf" "uploads/a.pdf" 0;
                        MulterFile.mk "c.pdf" "c.pdf" "uploads/c.pdf" 0]))
                 ("Successfully uploaded "
                    +:+ JS.Number_toString (Z.of_nat (length recs))
                    +:+ " file(s)"))), w') /\
    Forall2 (recorded_as md5_empty (default EmptyString None) stocked_world)
      (List.filter (on_disk stocked_world)
         [MulterFile.mk "a.pdf" "a.pdf" "uploads/a.pdf" 0;
          MulterFile.mk "c.pdf" "c.pdf" "uploads/c.pdf" 0]) recs /\
    map File.id recs = count_from (nextId (current stocked_world)) (length recs) /\
    files (current w') = files (current stocked_world) ++ recs /\
    nextId (current w') = nextId (current stocked_world) + Z.of_nat (length recs) /\
    disk w' = disk stocked_world.
Proof.
  assert (Hin : Forall in_uploads
                  [MulterFile.mk "a.pdf" "a.pdf" "uploads/a.pdf" 0;
                   MulterFile.mk "c.pdf" "c.pdf" "uploads/c.pdf" 0]).
  { repeat constructor.
    - exists "a.pdf". split; [repeat split; discriminate | reflexivity].
    - exists "c.pdf". split; [repeat split; discriminate | reflexivity]. }
  split; [discriminate|]. split; [exact Hin|]. split; [split; simpl; lia|].
  apply upload_route_collects; [discriminate | exact Hin | split; simpl; lia].
Defined.



(** ** Downloads *)

(** X13: for a record whose [filename] is a plain name and whose file is
    not in the upload directory the download route answers 404
    [File not found on disk] and changes nothing. *)
Theorem download_blob_missing (mime_lookup : string -> option string)
    (id : string) (w : World) (file : File.t) :
  (db.getFileById id w).1 = inr (Some file) ->
  plain_name (File.filename file) ->
  disk w !! path.join UPLOAD_DIR (File.filename file) = None ->
  download mime_lookup id w
    = (inr (NotSent 404 false "File not found on disk"), w).
Proof.
  rewrite getFileById_run. simpl. intros [= Hfind].
  now apply download_absent.
Qed.

Lemma download_blob_missing_witness :
  (db.getFileById "2" stocked_world).1
    = inr (Some (File.mk 2 "b.pdf" "b.pdf" "pdf" 0 EmptyString EmptyString
                   "uploads/b.pdf" 0 "uploaded")) /\
  plain_name "b.pdf" /\
  disk stocked_world !! path.join UPLOAD_DIR "b.pdf" = None /\
  download (fun _ => None) "2" stocked_world
    = (inr (NotSent 404 false "File not found on disk"), stocked_world).
Proof.
  assert (Hplain : plain_name "b.pdf") by (repeat split; discriminate).
  split; [reflexivity|]. split; [exact Hplain|]. split; [reflexivity|].
  apply (download_blob_missing (fun _ => None) "2" stocked_world
           (File.mk 2 "b.pdf" "b.pdf" "pdf" 0 EmptyString EmptyString
              "uploads/b.pdf" 0 "uploaded")); [reflexivity | exact Hplain | reflexivity].
Defined.



Section SingleFile.
Variable md5_hex : list Byte.byte -> string.





End SingleFile.

Section RoundTrip.
Variable md5_hex : list Byte.byte -> string.
Variable mime_lookup : string -> option string.


End RoundTrip.


(** ** Requests that multer refuses *)

Section Refused.
Variable md5_hex : list Byte.byte -> string.

Lemma post_upload_multer_error (req : UploadRequest) (w : World) (e : Exn) :
  (multer.array "files" 20 (parts req) w).1 = inl e ->
  exists w',
    post_upload md5_hex req w = ((errorMiddleware e w').1, w') /\
    dbFile w' = dbFile w.
Proof.
  intros He. unfold multer.array in He.
  pose proof (handle_parts_db "files" (parts req) 20 [] w (Forall_nil_2 _)) as Hdb.
  destruct (multer.handle_parts "files" 20 (parts req) [] w) as [out w1] eqn:Hparts.
  simpl in He, Hdb. subst out. exists w1. split; [|exact Hdb].
  unfold post_upload, try_catch, multer.array.
  rewrite (bind_throw _ _ _ _ _ Hparts).
  destruct e as [m | c]; simpl; [reflexivity|].
  now destruct (bool_decide _).
Qed.

Lemma multer_refuses (pre post : list Part.t) (bad : Part.t) (w : World)
    (e : Exn) :
  Forall (accepted "files") pre ->
  Z.of_nat (length pre) <= 20 ->
  file_name bad <> EmptyString ->
  (Part.fieldname bad <> "files" \/ length pre = 20%nat ->
   e = MulterError "LIMIT_UNEXPECTED_FILE") ->
  (Part.fieldname bad = "files" -> Z.of_nat (length pre) < 20 ->
   ~ disallowed (file_name bad) /\
   MAX_FILE_SIZE <= Z.of_nat (length (Part.content bad)) /\
   e = MulterError "LIMIT_FILE_SIZE") ->
  (multer.array "files" 20 (pre ++ bad :: post) w).1 = inl e.
Proof.
  intros Hpre Hlen Hname Hunexpected Hlarge. unfold multer.array.
  destruct (handle_parts_prefix (fun _ => True) "files" pre (bad :: post) 20 [] w
              (Forall_nil_2 _) Hpre)
    as (new & w1 & -> & _ & _ & _ & Hbeside);
    [now apply Forall_forall | lia | constructor |].
  destruct (handle_parts_step "files" (20 - Z.of_nat (length pre)) bad post
              ([] ++ new) w1 Hbeside)
    as [[Hempty _] | [(_ & e' & w2 & -> & _ & Hwhy)
                     | ((_ & [Hfield Hsize] & Hok) & Hleft & _)]].
  - congruence.
  - simpl. f_equal.
    destruct Hwhy as [[-> [H | H]] | [(Hf & Hl & H & _) | (Hf & Hl & _ & _ & ->)]].
    + symmetry. apply Hunexpected. now left.
    + symmetry. apply Hunexpected. right. lia.
    + destruct (Hlarge Hf) as (Hok & _); [lia | tauto].
    + destruct (Hlarge Hf) as (_ & _ & ->); [lia | reflexivity].
  - destruct (Hlarge Hfield) as (_ & Hbig & _); lia.
Qed.


(** X17: when the first part that is not accepted is a file with a name
    in another field than [files], or is the twenty-first file, the
    request is answered 500 [Unexpected field] and the store is left as it
    was. *)
Theorem upload_unexpected_file (req : UploadRequest) (pre post : list Part.t)
    (bad : Part.t) (w : World) :
  parts req = pre ++ bad :: post ->
  Forall (accepted "files") pre ->
  Z.of_nat (length pre) <= 20 ->
  file_name bad <> EmptyString ->
  Part.fieldname bad <> "files" \/ length pre = 20%nat ->
  exists w',
    post_upload md5_hex req w =
      (inr (mkResponse 500 (Failure false "Unexpected field")), w') /\
    dbFile w' = dbFile w.
Proof.
  intros Hsplit Hpre Hlen Hname Hbad.
  destruct (post_upload_multer_error req w (MulterError "LIMIT_UNEXPECTED_FILE"))
    as (w' & Hrun & Hdb).
  - rewrite Hsplit. apply multer_refuses; auto.
    intros Hfield Hlt. destruct Hbad as [H | H]; [congruence | lia].
  - exists w'. split; [exact Hrun | exact Hdb].
Qed.

End Refused.


Lemma upload_unexpected_file_witness :
  parts (mkUploadRequest [Part.mk "photo" "a.pdf" []] None)
    = [] ++ Part.mk "photo" "a.pdf" [] :: [] /\
  Forall (accepted "files") [] /\
  Z.of_nat (length (@nil Part.t)) <= 20 /\
  file_name (Part.mk "photo" "a.pdf" []) <> EmptyString /\
  (Part.fieldname (Part.mk "photo" "a.pdf" []) <> "files"
   \/ length (@nil Part.t) = 20%nat) /\
  exists w',
    post_upload md5_empty (mkUploadRequest [Part.mk "photo" "a.pdf" []] None)
      sample_world =
      (inr (mkResponse 500 (Failure false "Unexpected field")), w') /\
    dbFile w' = dbFile sample_world.
Proof.
  assert (H1 : parts (mkUploadRequest [Part.mk "photo" "a.pdf" []] None)
               = [] ++ Part.mk "photo" "a.pdf" [] :: []) by reflexivity.
  assert (H2 : Forall (accepted "files") []) by constructor.
  assert (H3 : Z.of_nat (length (@nil Part.t)) <= 20) by (simpl; lia).
  assert (H4 : file_name (Part.mk "photo" "a.pdf" []) <> EmptyString)
    by discriminate.
  assert (H5 : Part.fieldname (Part.mk "photo" "a.pdf" []) <> "files"
               \/ length (@nil Part.t) = 20%nat) by (left; discriminate).
  repeat (split; [assumption|]).
  exact (upload_unexpected_file md5_empty _ [] [] _ sample_world H1 H2 H3 H4 H5).
Defined.

(** ** Ids over the life of the store *)

Lemma fresh_snoc (l : list File.t) (n : Z) (r : File.t) :
  fresh_ids (mkData l n) -> File.id r = n ->
  fresh_ids (mkData (l ++ [r]) (n + 1)).
Proof.
  intros [Hnd Hlt] Hid. unfold fresh_ids, ids in *. simpl in *.
  rewrite map_app. simpl. split.
  - apply NoDup_app. split; [assumption|]. split; [|apply NoDup_singleton].
    intros i Hi Hin. apply list_elem_of_singleton in Hin. subst i.
    rewrite Forall_forall in Hlt. specialize (Hlt _ Hi). lia.
  - apply Forall_app. split.
    + eapply Forall_impl; [exact Hlt|]. simpl. intros i Hi. lia.
    + repeat constructor. lia.
Qed.

Lemma fresh_app (l recs : list File.t) (n : Z) :
  fresh_ids (mkData l n) ->
  map File.id recs = count_from n (length recs) ->
  fresh_ids (mkData (l ++ recs) (n + Z.of_nat (length recs))).
Proof.
  revert l n. induction recs as [|r recs IH]; intros l n Hfresh Hids; simpl.
  - now rewrite app_nil_r, Z.add_0_r.
  - simpl in Hids. injection Hids as Hid Hids.
    replace (l ++ r :: recs) with ((l ++ [r]) ++ recs) by now rewrite <- app_assoc.
    replace (n + Z.of_nat (S (length recs)))
      with (n + 1 + Z.of_nat (length recs)) by lia.
    apply IH; [now apply fresh_snoc | assumption].
Qed.

Section Lifetime.
Variable md5_hex : list Byte.byte -> string.

Lemma post_upload_ids (req : UploadRequest) (w : World) :
  exact_ids (length (parts req)) (current w) ->
  exists recs,
    files (current (post_upload md5_hex req w).2) = files (current w) ++ recs /\
    map File.id recs = count_from (nextId (current w)) (length recs) /\
    nextId (current (post_upload md5_hex req w).2)
      = nextId (current w) + Z.of_nat (length recs) /\
    (length recs <= length (parts req))%nat.
Proof.
  intros Hx.
  pose proof (handle_parts_db "files" (parts req) 20 [] w (Forall_nil_2 _)) as Hdb.
  destruct (multer.handle_parts "files" 20 (parts req) [] w)
    as [[e | req_files] w1] eqn:Hparts; simpl in Hdb.
  - destruct (post_upload_multer_error md5_hex req w e) as (w' & -> & Hdb').
    { unfold multer.array. now rewrite Hparts. }
    exists []. simpl. rewrite app_nil_r, (current_dbFile _ _ Hdb').
    repeat split; lia.
  - destruct (handle_parts_files _ _ _ _ _ _ _ (Forall_nil_2 _) Hparts)
      as (_ & _ & new & Hnew & Hfrom & Hlen).
    simpl in Hnew. subst new.
    assert (Hin : Forall in_uploads req_files).
    { eapply Forall_impl; [exact Hfrom|]. intros f. apply stored_from_in_uploads. }
    unfold post_upload, try_catch, multer.array.
    rewrite (bind_run _ _ _ _ _ Hparts).
    destruct req_files as [|file rest].
    + exists []. simpl. rewrite app_nil_r, (current_dbFile _ _ Hdb).
      repeat split; lia.
    + destruct (upload_route_full md5_hex (file :: rest) (body_notes req) w1)
        as (recs & w' & Hrun & Hrecs & Hids & Hfiles & Hnext & _);
        [discriminate | exact Hin | |].
      { rewrite (current_dbFile _ _ Hdb). apply (exact_ids_le _ _ _ Hlen Hx). }
      rewrite Hrun.
      exists recs. simpl. rewrite <- (current_dbFile _ _ Hdb).
      repeat split; auto.
      apply Forall2_length in Hrecs. rewrite <- Hrecs.
      etransitivity; [apply List.filter_length_le | exact Hlen].
Qed.

Lemma serve_fresh (requests : list Request) (w : World) :
  fresh_ids (current w) ->
  1 <= nextId (current w) ->
  nextId (current w) + Z.of_nat (parts_in requests) <= 2 ^ 53 ->
  fresh_ids (current (serve md5_hex requests w).2).
Proof.
  revert w. induction requests as [|[req | id] rest IH]; intros w Hw Hlo Hhi;
    simpl in *.
  - exact Hw.
  - destruct (post_upload_ids req w) as (recs & Hfiles & Hids & Hnext & Hlen);
      [split; lia|].
    destruct (post_upload md5_hex req w) as [out w1]. simpl in *.
    specialize (IH w1). destruct (serve md5_hex rest w1) as [outs w2].
    simpl in *. apply IH; [|lia..].
    pose proof (fresh_app (files (current w)) recs (nextId (current w))) as Hf.
    rewrite <- Hfiles, <- Hnext in Hf.
    destruct (current w1), (current w). simpl in *. auto.
  - destruct (delete_file_run id w) as (resp & w1 & -> & _ & Hdb).
    destruct (deleteFile_effect id w) as (Hn & _). simpl in Hn.
    specialize (IH w1). destruct (serve md5_hex rest w1) as [outs w2].
    simpl in *. destruct Hdb as [Hdb | Hdb].
    + apply IH; rewrite (current_dbFile _ _ Hdb);
        [now apply deleteFile_fresh | lia..].
    + assert (Hc : current w1 = db.empty) by (unfold current; now rewrite Hdb).
      apply IH; rewrite Hc; [apply empty_fresh | simpl; lia..].
Qed.

(** X18: along every sequence of upload and delete requests, from a store
    with fresh ids, such as the empty one, whose [nextId] is positive and
    stays a safe integer (or 2^53) however many of the parts are recorded,
    the ids of the store stay pairwise different and below [nextId]. *)
Theorem ids_stay_fresh (requests : list Request) (w : World) :
  fresh_ids (current w) ->
  1 <= nextId (current w) ->
  nextId (current w) + Z.of_nat (parts_in requests) <= 2 ^ 53 ->
  fresh_ids (current (serve md5_hex requests w).2).
Proof. apply serve_fresh. Qed.

End Lifetime.

Lemma ids_stay_fresh_witness :
  fresh_ids (current sample_world) /\
  1 <= nextId (current sample_world) /\
  nextId (current sample_world)
    + Z.of_nat (parts_in [Upload pair_upload; Delete "1"; Upload traversal_upload])
    <= 2 ^ 53 /\
  fresh_ids (current (serve md5_empty
                        [Upload pair_upload; Delete "1"; Upload traversal_upload]
                        sample_world).2).
Proof.
  assert (H : fresh_ids (current sample_world)) by (split; constructor).
  assert (H1 : 1 <= nextId (current sample_world)) by (simpl; lia).
  assert (H2 : nextId (current sample_world)
               + Z.of_nat (parts_in [Upload pair_upload; Delete "1";
                                     Upload traversal_upload]) <= 2 ^ 53)
    by (simpl; lia).
  split; [exact H|]. split; [exact H1|]. split; [exact H2|].
  exact (ids_stay_fresh md5_empty
           [Upload pair_upload; Delete "1"; Upload traversal_upload]
           sample_world H H1 H2).
Defined.

(** X19: on a store with fresh ids, no id [db.addFile] gives later, after
    whatever additions and deletions, is an id the store holds now: the id
    of a deleted record is not given again. *)
Theorem ids_never_reused (calls : list DbCall) (w : World) :
  fresh_ids (current w) ->
  Forall (fun r => File.id r ∉ ids (current w)) (run_calls calls w).1.
Proof.
  intros [_ Hlt]. destruct (run_calls_ids calls w) as (_ & Hb & _).
  rewrite Forall_map in Hb. eapply Forall_impl; [exact Hb|].
  intros r Hr Hin. simpl in Hr. rewrite Forall_forall in Hlt.
  specialize (Hlt _ Hin). lia.
Qed.

Lemma ids_never_reused_witness :
  fresh_ids (current stocked_world) /\
  Forall (fun r => File.id r ∉ ids (current stocked_world))
    (run_calls [Remove "2"; Append sample_info] stocked_world).1.
Proof.
  assert (H : fresh_ids (current stocked_world)).
  { split; [apply (bool_decide_unpack _); vm_compute; exact I|].
    repeat constructor. }
  split; [exact H|].
  exact (ids_never_reused [Remove "2"; Append sample_info] stocked_world H).
Defined.

(** ** The characters of a stored name *)

Lemma safe_char_name_char (c : ascii) : is_name_char (safe_char c) = true.
Proof. destruct c as [[] [] [] [] [] [] [] []]; reflexivity. Qed.

Lemma digit_stamped (d : Z) : is_name_char (stamp_char (JS.digit d)) = true.
Proof.
  unfold JS.digit. destruct d as [|p|p]; try reflexivity.
  repeat (destruct p as [p|p|]; try reflexivity).
Qed.

Lemma pad_stamped (width : nat) (n : Z) :
  JS.all_chars is_name_char (JS.map_chars stamp_char (JS.pad width n)) = true.
Proof.
  revert n. induction width as [|k IH]; intros n; simpl; [reflexivity|].
  assert (Happ : forall a b, JS.map_chars stamp_char (a +:+ b)
                   = JS.map_chars stamp_char a +:+ JS.map_chars stamp_char b).
  { intros a b. induction a as [|c a IHa]; simpl; [reflexivity | now rewrite IHa]. }
  rewrite Happ, all_chars_append, IH. simpl. now rewrite digit_stamped.
Qed.

Lemma map_chars_append (f : ascii -> ascii) (a b : string) :
  JS.map_chars f (a +:+ b) = JS.map_chars f a +:+ JS.map_chars f b.
Proof. induction a as [|c a IH]; simpl; [reflexivity | now rewrite IH]. Qed.

Lemma toISOString_stamped (t : Z) :
  JS.all_chars is_name_char (JS.map_chars stamp_char (JS.toISOString t)) = true.
Proof.
  unfold JS.toISOString. destruct (JS.civil _) as [[y m] d].
  assert (Hy : JS.all_chars is_name_char
                 (JS.map_chars stamp_char (JS.year_text y)) = true).
  { unfold JS.year_text. destruct (_ && _); [apply pad_stamped|].
    rewrite map_chars_append, all_chars_append, pad_stamped.
    now destruct (y <? 0). }
  repeat (rewrite map_chars_append, all_chars_append;
          rewrite ?pad_stamped, ?Hy; cbn [andb]).
  rewrite ?pad_stamped. reflexivity.
Qed.

(** X20: every character of a name [storage.filename] gives is a letter,
    a digit, [.], [_] or [-], or the [+] of a year beyond 9999, whatever
    the original name. *)
Theorem stored_name_chars (originalname : string) (w : World) :
  exists name,
    storage.filename originalname w = (inr name, tick w) /\
    JS.all_chars is_name_char name = true.
Proof.
  exists (stored_name (clock w (reads w)) originalname).
  split; [apply filename_run|].
  unfold stored_name. rewrite !all_chars_append, toISOString_stamped. simpl.
  apply (all_chars_map is_name_char (fun _ => true) safe_char).
  - intros c _. apply safe_char_name_char.
  - apply all_chars_true.
Qed.

(** ** Statistics follow the store *)

Lemma sum_sizes_app (l l' : list File.t) :
  sum_sizes (l ++ l') = sum_sizes l + sum_sizes l'.
Proof. induction l as [|f l IH]; simpl; lia. Qed.

Lemma exact_stats_remove (l1 l2 : list File.t) (f : File.t) (n n' : Z) :
  exact_stats (mkData (l1 ++ f :: l2) n) -> exact_stats (mkData (l1 ++ l2) n').
Proof.
  unfold exact_stats. simpl. rewrite !sum_sizes_app, !length_app. simpl.
  intros (Hsizes & Hsum & Hlen).
  apply Forall_app in Hsizes as [H1 H2]. apply Forall_cons in H2 as [Hf H2].
  repeat split; [now apply Forall_app | lia | lia].
Qed.

(** The route removes the record of a plain name from the store and
    nothing else. *)
Lemma delete_file_plain (id : string) (w : World) (file : File.t) :
  (db.getFileById id w).1 = inr (Some file) ->
  plain_name (File.filename file) ->
  exists l1 l2,
    files (current w) = l1 ++ file :: l2 /\
    current (delete_file id w).2 = mkData (l1 ++ l2) (nextId (current w)).
Proof.
  intros Hfind Hplain.
  destruct (disk w !! path.join UPLOAD_DIR (File.filename file)) as [bytes|] eqn:Hdisk.
  - destruct (delete_file_removes_blob id w file bytes Hfind Hdisk)
      as (l1 & l2 & Hl & _ & ->).
    exists l1, l2. split; [exact Hl | reflexivity].
  - destruct (delete_file_skips_blob id w file Hfind Hplain Hdisk)
      as (l1 & l2 & Hl & _ & ->).
    exists l1, l2. split; [exact Hl | reflexivity].
Qed.

(** X21: on a store with exact totals, after the delete route removed a
    record whose [filename] is a plain name, [db.getStats] counts one
    record less and the total size is smaller by the size of that
    record. *)
Theorem stats_after_delete (id : string) (w : World) (file : File.t) :
  (db.getFileById id w).1 = inr (Some file) ->
  plain_name (File.filename file) ->
  exact_stats (current w) ->
  exists before after,
    (db.getStats w).1 = inr before /\
    (db.getStats (delete_file id w).2).1 = inr after /\
    totalFiles after = totalFiles before - 1 /\
    totalSize after = totalSize before - File.size file.
Proof.
  intros Hfind Hplain Hexact.
  destruct (delete_file_plain id w file Hfind Hplain) as (l1 & l2 & Hl & Hc).
  assert (Hexact' : exact_stats (current (delete_file id w).2)).
  { rewrite Hc. apply (exact_stats_remove l1 l2 file (nextId (current w))).
    rewrite <- Hl. now destruct (current w). }
  destruct (getStats_totals w Hexact) as (before & Hb & Hbn & Hbs & _).
  destruct (getStats_totals _ Hexact') as (after & Ha & Han & Has & _).
  exists before, after. rewrite Hb, Ha. simpl.
  rewrite Han, Has, Hbn, Hbs, Hc, Hl. simpl.
  rewrite !length_app, !sum_sizes_app. simpl. repeat split; lia.
Qed.

Lemma stats_after_delete_witness :
  (db.getFileById "1" stocked_world).1 = inr (Some (twin "a.pdf")) /\
  plain_name (File.filename (twin "a.pdf")) /\
  exact_stats (current stocked_world) /\
  exists before after,
    (db.getStats stocked_world).1 = inr before /\
    (db.getStats (delete_file "1" stocked_world).2).1 = inr after /\
    totalFiles after = totalFiles before - 1 /\
    totalSize after = totalSize before - File.size (twin "a.pdf").
Proof.
  assert (Hplain : plain_name (File.filename (twin "a.pdf")))
    by (repeat split; discriminate).
  assert (Hx : exact_stats (current stocked_world)).
  { repeat split; simpl; try lia. repeat constructor; simpl; lia. }
  split; [reflexivity|]. split; [exact Hplain|]. split; [exact Hx|].
  apply (stats_after_delete "1" stocked_world (twin "a.pdf"));
    [reflexivity | exact Hplain | exact Hx].
Defined.

(** ** One file, uploaded and deleted *)


Section UploadDelete.
Variable md5_hex : list Byte.byte -> string.


End UploadDelete.


(** ** Parts without a name *)

Lemma handle_parts_named (field : string) (parts : list Part.t) (filesLeft : Z)
    (stored : list MulterFile.t) (w : World) :
  multer.handle_parts field filesLeft parts stored w =
  multer.handle_parts field filesLeft (List.filter has_name parts) stored w.
Proof.
  revert filesLeft stored w.
  induction parts as [|p parts IH]; intros filesLeft stored w; [reflexivity|].
  cbn [List.filter]. unfold has_name at 1.
  destruct (String.eqb (file_name p) EmptyString) eqn:Hname; cbn [negb].
  - cbn [multer.handle_parts]. fold (file_name p). rewrite Hname. apply IH.
  - cbn [multer.handle_parts]. fold (file_name p). rewrite Hname.
    destruct (negb _ || _); [reflexivity|].
    destruct (fileFilter (file_name p)) as [e | [|]]; [reflexivity | | apply IH].
    rewrite !(bind_run _ _ _ _ _ (filename_run _ w)).
    destruct (_ >=? MAX_FILE_SIZE); [reflexivity|].
    unfold fs.writeFile. unfold_M. apply IH.
Qed.


Section Nameless.
Variable md5_hex : list Byte.byte -> string.

(** X23: the parts whose base name is empty (no name, [.], [..], or a
    name that ends in a slash or a backslash) do not count: the request
    is served as the request without them, whatever their field, size and
    number. *)
Theorem nameless_parts_ignored (req_parts : list Part.t) (notes : option string)
    (w : World) :
  post_upload md5_hex (mkUploadRequest req_parts notes) w =
  post_upload md5_hex (mkUploadRequest (List.filter has_name req_parts) notes) w.
Proof.
  unfold post_upload, multer.array, try_catch. cbn [parts body_notes].
  unfold mbind, M_bind. now rewrite <- handle_parts_named.
Qed.


End Nameless.


(** ** A record that names the database file *)

(** X25: when the [filename] of the record the id designates leads from
    the upload directory to [files.json], the delete route removes the
    record, then the database file itself, and answers 200: the store
    reads as empty afterwards. *)
Theorem delete_removes_store (id : string) (w : World) (file : File.t) :
  (db.getFileById id w).1 = inr (Some file) ->
  path.join UPLOAD_DIR (File.filename file) = dbPath ->
  disk w !! dbPath = None ->
  exists w',
    delete_file id w =
      (inr (mkResponse 200 (DeleteResult true "File deleted successfully")), w') /\
    dbFile w' = Missing /\ current w' = db.empty /\ disk w' = disk w.
Proof.
  rewrite getFileById_run. simpl. intros Hfind Hpath Hdisk.
  destruct (deleteFile_cases id w)
    as [[Hnone _] | (l1 & f & l2 & Hl & H1 & Hf & Hrun)].
  - rewrite (find_none _ _ Hnone) in Hfind. discriminate.
  - rewrite Hl, (find_at _ _ _ _ H1 Hf) in Hfind.
    assert (f = file) as -> by congruence.
    unfold delete_file, try_catch.
    rewrite (bind_run _ _ _ _ _ Hrun), Hpath.
    set (w1 := set_db (mkData (l1 ++ l2) (nextId (current w))) w).
    rewrite (bind_run _ _ _ _ _ (existsSync_run _ w1)).
    change (disk w1) with (disk w). rewrite Hdisk.
    rewrite bool_decide_eq_false_2 by (intros [x Hx]; discriminate).
    change (fs.is_directory dbPath) with false.
    change (String.eqb dbPath dbPath && fs.db_present w1) with true.
    cbn [orb].
    assert (Hun : fs.unlinkSync dbPath w1 =
                  (inr tt, mkWorld Missing (disk w) (clock w) (reads w))).
    { unfold fs.unlinkSync. unfold_M. change (disk w1) with (disk w).
      now rewrite Hdisk. }
    rewrite (bind_run _ _ _ _ _ Hun).
    eexists. split; [reflexivity|]. repeat split.
Qed.

Lemma delete_removes_store_witness :
  (db.getFileById "7" straying_world).1 = inr (Some straying) /\
  path.join UPLOAD_DIR (File.filename straying) = dbPath /\
  disk straying_world !! dbPath = None /\
  exists w',
    delete_file "7" straying_world =
      (inr (mkResponse 200 (DeleteResult true "File deleted successfully")), w') /\
    dbFile w' = Missing /\ current w' = db.empty /\
    disk w' = disk straying_world.
Proof.
  split; [reflexivity|]. split; [reflexivity|]. split; [reflexivity|].
  apply (delete_removes_store "7" straying_world straying); reflexivity.
Defined.
